(** * Expense ledger: time-range sums, tool-call dispatch and receipt rows

    A shallow embedding of the Python code of the repository:

    - [custom_sum] (utils/custom_sum.py, shown in
      processing_data_with_python.md): filters the expense ledger by a
      [time_range] dictionary and sums the [Price] column;
    - [get_sum] (utils/get_sum.py, same document): reads the reply of the
      chat-completion call and dispatches to [custom_sum];
    - the cell of gpt4o-setup.ipynb that turns a parsed receipt into new
      ledger rows.

    Python dictionaries are finite maps ([gmap]) with string keys, a pandas
    DataFrame is the list of its rows, exceptions are the [Raise] results of
    an error monad, and the in-place update of the DataFrame is made explicit
    by returning the frame a call leaves behind.  The two library calls whose
    code is not part of the repository, [pd.to_datetime] and [json.loads],
    are parameters of the sections that use them; ISO-date and flat-object
    instances are given for the closed examples.  Prices are exact
    rationals in [custom_sum]; [custom_sum_int64] and [custom_sum_binary64]
    add the Price column up as pandas does, wrapping around in int64 and
    rounding in float64. *)

From Stdlib Require Import ZArith QArith String Ascii List Lia Floats.
From Stdlib Require Uint63.
From stdpp Require Import gmap strings list fin_maps.

Local Open Scope Z_scope.

(** ** Exceptions and results *)

Module Py.

(** The exceptions the modelled code can end with. *)
Inductive error : Type :=
  | InvalidTimeRange  (* ValueError("Invalid time specification.") *)
  | DateParseError    (* raised by pd.to_datetime *)
  | JSONDecodeError   (* raised by json.loads *)
  | KeyError (key : string)
  | TypeError
  | IndexError.

(** A call either returns a value or raises. *)
Inductive pyresult (A : Type) : Type :=
  | Return (a : A)
  | Raise (e : error).

Arguments Return {A} a.
Arguments Raise {A} e.

Definition bind {A B : Type} (r : pyresult A) (k : A -> pyresult B) : pyresult B :=
  match r with
  | Return a => k a
  | Raise e => Raise e
  end.

Definition is_return {A : Type} (r : pyresult A) : bool :=
  match r with
  | Return _ => true
  | Raise _ => false
  end.

End Py.

Import Py.

#[global] Instance pyresult_ret : MRet pyresult := @Return.
#[global] Instance pyresult_bind : MBind pyresult := fun A B k r => Py.bind r k.

(** ** Timestamps *)

Module Pandas.

(** A pandas Timestamp: a calendar date and the nanoseconds elapsed since
    midnight of that day. *)
Record Timestamp : Type := mkTimestamp {
  ts_year : Z;
  ts_month : Z;
  ts_day : Z;
  ts_nanos : Z
}.

(** What a datetime64 column holds: a timestamp or the missing value NaT. *)
Inductive datetime : Type :=
  | NaT
  | Stamp (t : Timestamp).

(** The timestamp of a calendar date, at midnight. *)
Definition midnight (y m d : Z) : Timestamp := mkTimestamp y m d 0.

(** Chronological comparison, field by field. *)
Definition ts_compare (a b : Timestamp) : comparison :=
  match ts_year a ?= ts_year b with
  | Eq =>
      match ts_month a ?= ts_month b with
      | Eq =>
          match ts_day a ?= ts_day b with
          | Eq => ts_nanos a ?= ts_nanos b
          | c => c
          end
      | c => c
      end
  | c => c
  end.

Definition ts_eqb (a b : Timestamp) : bool :=
  match ts_compare a b with
  | Eq => true
  | _ => false
  end.

Definition ts_leb (a b : Timestamp) : bool :=
  match ts_compare a b with
  | Gt => false
  | _ => true
  end.

(** Element-wise comparisons of a datetime64 column with a scalar: NaT
    compares false with everything. *)
Definition dt_eqb (a b : datetime) : bool :=
  match a, b with
  | Stamp x, Stamp y => ts_eqb x y
  | _, _ => false
  end.

Definition dt_leb (a b : datetime) : bool :=
  match a, b with
  | Stamp x, Stamp y => ts_leb x y
  | _, _ => false
  end.

(** The [.dt.year] and [.dt.month] accessors; they are missing on NaT. *)
Definition dt_year (a : datetime) : option Z :=
  match a with
  | Stamp t => Some (ts_year t)
  | NaT => None
  end.

Definition dt_month (a : datetime) : option Z :=
  match a with
  | Stamp t => Some (ts_month t)
  | NaT => None
  end.

(** Chronological order as a proposition, used to state the filters. *)
Definition ts_lt (a b : Timestamp) : Prop :=
  ts_year a < ts_year b \/
  (ts_year a = ts_year b /\
   (ts_month a < ts_month b \/
    (ts_month a = ts_month b /\
     (ts_day a < ts_day b \/
      (ts_day a = ts_day b /\ ts_nanos a < ts_nanos b))))).

Definition ts_le (a b : Timestamp) : Prop := ts_lt a b \/ a = b.

End Pandas.

Import Pandas.

(** ** The ledger *)

(** The value of a key of [time_range].  The function-call schema declares
    the date keys as strings and [month], [year] as integers. *)
Inductive value : Type :=
  | VStr (s : string)
  | VInt (z : Z).

(** A cell of the [Date] column: the text read from the CSV file, or a
    datetime once the column has been converted. *)
Inductive DateCell : Type :=
  | DateStr (s : string)
  | DateVal (d : datetime).

(** A row of [expenses_df], with the columns of expenses.csv. *)
Record Row : Type := mkRow {
  Date : DateCell;
  Vendor : string;
  Name : string;
  Quantity : Z;
  Price : Q;
  Category : string;
  Payment_method : string
}.

Definition DataFrame : Type := list Row.

Definition set_Date (c : DateCell) (r : Row) : Row :=
  mkRow c (Vendor r) (Name r) (Quantity r) (Price r) (Category r) (Payment_method r).

(** The datetime of a row of a converted frame. *)
Definition row_date (r : Row) : datetime :=
  match Date r with
  | DateVal d => d
  | DateStr _ => NaT
  end.

(** [filtered_df['Price'].sum()]: the prices of a column added one after
    the other from 0, so 0 when the column is empty.  Prices are exact
    decimal numbers here. *)
Definition sum_price (df : DataFrame) : Q :=
  fold_left Qplus (map Price df) 0%Q.

(** The same sum when the column holds binary64 numbers, added one after
    the other from 0 as a short column is. *)
Definition binary64_sum (prices : list float) : float :=
  fold_left PrimFloat.add prices 0%float.

(** [column == n] for an integer column and a value of [time_range]: an
    integer never equals a string. *)
Definition eq_int (n : option Z) (v : value) : bool :=
  match n, v with
  | Some z, VInt k => z =? k
  | _, _ => false
  end.

(** ** custom_sum *)

Section CustomSum.

(** [pd.to_datetime] on one value: the datetime it gives, [None] when it
    raises.  The Date column is converted cell by cell with it. *)
Variable to_datetime : value -> option datetime.

Definition scalar_to_datetime (v : value) : pyresult datetime :=
  match to_datetime v with
  | Some d => Return d
  | None => Raise DateParseError
  end.

(** [pd.to_datetime] on a cell of the Date column: text is parsed, a
    datetime is kept. *)
Definition cell_to_datetime (c : DateCell) : option datetime :=
  match c with
  | DateStr s => to_datetime (VStr s)
  | DateVal d => Some d
  end.

Definition convert_row (r : Row) : option Row :=
  match cell_to_datetime (Date r) with
  | Some d => Some (set_Date (DateVal d) r)
  | None => None
  end.

(** [pd.to_datetime(expenses_df['Date'])] written back to the column: every
    cell converted, or nothing when one cell cannot be. *)
Fixpoint convert_dates (df : DataFrame) : option DataFrame :=
  match df with
  | [] => Some []
  | r :: rest =>
      match convert_row r, convert_dates rest with
      | Some r', Some rest' => Some (r' :: rest')
      | _, _ => None
      end
  end.

(** The if/elif chain of [custom_sum] over the converted frame. *)
Definition filtered_df (time_range : gmap string value) (expenses_df : DataFrame)
  : pyresult DataFrame :=
  match time_range !! "specific_date" with
  | Some v =>
      specific_date ← scalar_to_datetime v;
      Return (List.filter (fun r => dt_eqb (row_date r) specific_date) expenses_df)
  | None =>
      match time_range !! "start_date", time_range !! "end_date" with
      | Some vs, Some ve =>
          start_date ← scalar_to_datetime vs;
          end_date ← scalar_to_datetime ve;
          Return (List.filter
                    (fun r => dt_leb start_date (row_date r) && dt_leb (row_date r) end_date)
                    expenses_df)
      | _, _ =>
          match time_range !! "month", time_range !! "year" with
          | Some month, Some year =>
              Return (List.filter
                        (fun r => eq_int (dt_month (row_date r)) month
                                  && eq_int (dt_year (row_date r)) year)
                        expenses_df)
          | _, _ =>
              match time_range !! "year" with
              | Some year =>
                  Return (List.filter
                            (fun r => eq_int (dt_year (row_date r)) year)
                            expenses_df)
              | None => Raise InvalidTimeRange
              end
          end
      end
  end.

(** [custom_sum time_range expenses_df]: the frame the call leaves behind,
    and what the call returns or raises.  The Date column is converted in
    place first; when the conversion raises the frame is as it was. *)
Definition custom_sum (time_range : gmap string value) (expenses_df : DataFrame)
  : DataFrame * pyresult Q :=
  match convert_dates expenses_df with
  | None => (expenses_df, Raise DateParseError)
  | Some converted =>
      (converted,
       filtered ← filtered_df time_range converted;
       Return (sum_price filtered))
  end.

(** The test [filtered_df] applies to the date of a row, by the same chain:
    every branch of [custom_sum] filters on the Date column alone. *)
Definition date_test (time_range : gmap string value) : pyresult (datetime -> bool) :=
  match time_range !! "specific_date" with
  | Some v =>
      specific_date ← scalar_to_datetime v;
      Return (fun d => dt_eqb d specific_date)
  | None =>
      match time_range !! "start_date", time_range !! "end_date" with
      | Some vs, Some ve =>
          start_date ← scalar_to_datetime vs;
          end_date ← scalar_to_datetime ve;
          Return (fun d => dt_leb start_date d && dt_leb d end_date)
      | _, _ =>
          match time_range !! "month", time_range !! "year" with
          | Some month, Some year =>
              Return (fun d => eq_int (dt_month d) month && eq_int (dt_year d) year)
          | _, _ =>
              match time_range !! "year" with
              | Some year => Return (fun d => eq_int (dt_year d) year)
              | None => Raise InvalidTimeRange
              end
          end
      end
  end.

Definition has_key (key : string) (time_range : gmap string value) : bool :=
  match time_range !! key with
  | Some _ => true
  | None => false
  end.

(** One of the key combinations [custom_sum] recognizes is present. *)
Definition recognized (time_range : gmap string value) : bool :=
  has_key "specific_date" time_range
  || (has_key "start_date" time_range && has_key "end_date" time_range)
  || (has_key "month" time_range && has_key "year" time_range)
  || has_key "year" time_range.

Definition parses (v : value) : bool :=
  match to_datetime v with
  | Some _ => true
  | None => false
  end.

(** A valid [time_range]: a recognized combination is present and the
    dates of the first one present can be read. *)
Definition valid_time_range (time_range : gmap string value) : bool :=
  match time_range !! "specific_date" with
  | Some v => parses v
  | None =>
      match time_range !! "start_date", time_range !! "end_date" with
      | Some vs, Some ve => parses vs && parses ve
      | _, _ => has_key "year" time_range
      end
  end.

End CustomSum.

(** The rows of two frames agree on the two columns [custom_sum] reads. *)
Definition same_date_price (r r' : Row) : Prop :=
  Date r = Date r' /\ Price r = Price r'.

(** ** An instance of [pd.to_datetime]: ISO 8601 calendar dates *)

Module Iso.

Definition digit (c : ascii) : option Z :=
  let n := Z.of_nat (nat_of_ascii c) in
  if (48 <=? n) && (n <=? 57) then Some (n - 48) else None.

Fixpoint digits (cs : list ascii) (acc : Z) : option Z :=
  match cs with
  | [] => Some acc
  | c :: rest =>
      match digit c with
      | Some d => digits rest (10 * acc + d)
      | None => None
      end
  end.

Definition is_leap (y : Z) : bool :=
  (y mod 4 =? 0) && (negb (y mod 100 =? 0) || (y mod 400 =? 0)).

Definition days_in_month (y m : Z) : Z :=
  if m =? 2 then (if is_leap y then 29 else 28)
  else if (m =? 4) || (m =? 6) || (m =? 9) || (m =? 11) then 30
  else 31.

(** A date is accepted when it exists in the calendar and its year lies
    within the years a nanosecond timestamp can hold in full. *)
Definition valid_date (y m d : Z) : bool :=
  (1678 <=? y) && (y <=? 2261) && (1 <=? m) && (m <=? 12)
  && (1 <=? d) && (d <=? days_in_month y m).

(** Text of the form YYYY-MM-DD. *)
Definition parse_date (s : string) : option Timestamp :=
  match list_ascii_of_string s with
  | [y1; y2; y3; y4; "-"%char; m1; m2; "-"%char; d1; d2] =>
      match digits [y1; y2; y3; y4] 0, digits [m1; m2] 0, digits [d1; d2] 0 with
      | Some y, Some m, Some d =>
          if valid_date y m d then Some (midnight y m d) else None
      | _, _, _ => None
      end
  | _ => None
  end.

(** [pd.to_datetime] on the dates the function-call schema asks for
    (strings with format date).  It reports a failure on every other value,
    some of which pandas accepts (other notations, integers, the first and
    last year of its range); the closed examples below use ISO dates
    only. *)
Definition to_datetime (v : value) : option datetime :=
  match v with
  | VStr s => Stamp <$> parse_date s
  | VInt _ => None
  end.

End Iso.

(** ** get_sum *)

(** The reply of [client.chat.completions.create], as far as [get_sum]
    reads it. *)
Record ToolFunction : Type := mkToolFunction {
  name : string;
  arguments : string
}.

Record ToolCall : Type := mkToolCall {
  function : ToolFunction
}.

Record Message : Type := mkMessage {
  content : option string;
  tool_calls : option (list ToolCall)
}.

Record Choice : Type := mkChoice {
  message : Message
}.

Record ChatCompletion : Type := mkChatCompletion {
  choices : list Choice
}.

(** What [get_sum] writes with [print]. *)
Inductive printed : Type :=
  | PrintTimeRange (arguments : string)      (* time_range: ... *)
  | PrintWarning (content : option string).  (* WARNING: ... *)

(** The state of the world after a call of [get_sum]: the ledger, the
    lines printed, and the call's result ([None] for a bare return). *)
Record Outcome : Type := mkOutcome {
  frame : DataFrame;
  stdout : list printed;
  result : pyresult (option Q)
}.

Section GetSum.

Variable to_datetime : value -> option datetime.

(** [json.loads] on the arguments of a tool call.  The arguments of
    custom_sum are a JSON object whose values the schema declares as strings
    and integers: the parameter gives the decoded dictionary, [None] when
    decoding raises. *)
Variable json_loads : string -> option (gmap string value).

(** [response.choices[0].message]. *)
Definition first_message (response : ChatCompletion) : pyresult Message :=
  match choices response with
  | choice :: _ => Return (message choice)
  | [] => Raise IndexError
  end.

(** [message.tool_calls[0]]: subscripting None is a TypeError, an empty
    list has no first element. *)
Definition first_tool_call (m : Message) : pyresult ToolCall :=
  match tool_calls m with
  | None => Raise TypeError
  | Some [] => Raise IndexError
  | Some (call :: _) => Return call
  end.

(** The condition of the inner [if]: tool_calls is not None, is not empty,
    and the first tool is custom_sum. *)
Definition invokes_custom_sum (m : Message) : bool :=
  match tool_calls m with
  | None => false
  | Some calls =>
      (0 <? Z.of_nat (length calls))
      && match calls with
         | call :: _ => String.eqb (name (function call)) "custom_sum"
         | [] => false
         end
  end.

(** [get_sum], given the reply the remote call produced.  The [print] of
    the arguments comes first and reads [tool_calls[0]] before any test;
    the outer [if response:] always holds for a reply object. *)
Definition get_sum (response : ChatCompletion) (expenses_df : DataFrame) : Outcome :=
  match m ← first_message response; call ← first_tool_call m; Return (m, call) with
  | Raise e => mkOutcome expenses_df [] (Raise e)
  | Return (m, call) =>
      let out := [PrintTimeRange (arguments (function call))] in
      if invokes_custom_sum m then
        match json_loads (arguments (function call)) with
        | None => mkOutcome expenses_df out (Raise JSONDecodeError)
        | Some time_range =>
            let '(df, requested_sum) := custom_sum to_datetime time_range expenses_df in
            mkOutcome df out (s ← requested_sum; Return (Some s))
        end
      else
        mkOutcome expenses_df (out ++ [PrintWarning (content m)]) (Return None)
  end.

End GetSum.

(** The tagged result the specification describes for a reply: plain text
    when no tool is invoked, the tool's name and JSON-encoded arguments when
    exactly one is.  It is stated here to be compared with [get_sum]. *)
Inductive ExtractionResult : Type :=
  | PlainText (text : string)
  | ToolInvocation (tool : string) (argumentsJSON : string).

Definition spec_tagged_result (m : Message) : option ExtractionResult :=
  match tool_calls m, content m with
  | None, Some text | Some [], Some text => Some (PlainText text)
  | Some [call], _ => Some (ToolInvocation (name (function call)) (arguments (function call)))
  | _, _ => None
  end.

(** ** An instance of [json.loads]: compact flat objects *)

Module FlatJson.

Definition dquote : ascii := "034"%char.

(** [quoted s] is [s] between double quotes. *)
Definition quoted (s : string) : string :=
  String dquote (s +:+ String dquote EmptyString).

(** The characters of a string literal up to its closing quote; escapes are
    not handled, and a control character is refused as JSON refuses it. *)
Fixpoint read_string (cs : list ascii) : option (string * list ascii) :=
  match cs with
  | [] => None
  | c :: rest =>
      if Ascii.eqb c dquote then Some (EmptyString, rest)
      else if Ascii.eqb c "\"%char || (nat_of_ascii c <? 32)%nat then None
      else
        match read_string rest with
        | Some (s, rest') => Some (String c s, rest')
        | None => None
        end
  end.

(** The digits a number starts with; [read_value] refuses a leading zero
    that other digits follow. *)
Fixpoint read_digits (cs : list ascii) (acc : Z) (seen : bool)
  : option (Z * list ascii) :=
  match cs with
  | c :: rest =>
      match Iso.digit c with
      | Some d => read_digits rest (10 * acc + d) true
      | None => if seen then Some (acc, cs) else None
      end
  | [] => if seen then Some (acc, []) else None
  end.

Definition leading_zero (cs : list ascii) : bool :=
  match cs with
  | "0"%char :: c :: _ =>
      match Iso.digit c with
      | Some _ => true
      | None => false
      end
  | _ => false
  end.

Definition read_int (cs : list ascii) : option (Z * list ascii) :=
  if leading_zero cs then None else read_digits cs 0 false.

Definition read_value (cs : list ascii) : option (value * list ascii) :=
  match cs with
  | c :: rest =>
      if Ascii.eqb c dquote then
        match read_string rest with
        | Some (s, rest') => Some (VStr s, rest')
        | None => None
        end
      else if Ascii.eqb c "-"%char then
        match read_int rest with
        | Some (n, rest') => Some (VInt (- n), rest')
        | None => None
        end
      else
        match read_int cs with
        | Some (n, rest') => Some (VInt n, rest')
        | None => None
        end
  | [] => None
  end.

(** The members of an object, from the first key to the closing brace; a
    key given twice keeps its last value. *)
Fixpoint read_members (fuel : nat) (cs : list ascii) (acc : gmap string value)
  : option (gmap string value) :=
  match fuel, cs with
  | S fuel', c :: rest =>
      if Ascii.eqb c dquote then
        match read_string rest with
        | Some (key, ":"%char :: rest1) =>
            match read_value rest1 with
            | Some (v, ["}"%char]) => Some (<[key := v]> acc)
            | Some (v, ","%char :: rest2) => read_members fuel' rest2 (<[key := v]> acc)
            | _ => None
            end
        | _ => None
        end
      else None
  | _, _ => None
  end.

(** [json.loads] on a JSON object written without blanks whose values are
    strings and integers.  It reports a failure on every other text,
    including JSON that json.loads accepts; the closed examples below use
    compact flat objects only. *)
Definition loads (s : string) : option (gmap string value) :=
  match list_ascii_of_string s with
  | ["{"%char; "}"%char] => Some ∅
  | "{"%char :: rest => read_members (length rest) rest ∅
  | _ => None
  end.

End FlatJson.

(** ** The receipt cell of the notebook *)

Module Notebook.

(** A value decoded by [json.loads]. *)
#[local] Unset Elimination Schemes.
Inductive json : Type :=
  | JNull
  | JBool (b : bool)
  | JInt (z : Z)
  | JNum (q : Q)
  | JStr (s : string)
  | JArr (l : list json)
  | JObj (m : gmap string json).
#[local] Set Elimination Schemes.

(** The enums the itemize_receipt schema declares. *)
Definition category_enum : list string :=
  ["take-out"; "meal"; "groceries"; "clothing"; "electronics"; "supplies"; "other"].

Definition payment_method_enum : list string :=
  ["cash"; "credit"; "debit"; "mobile"; "other"].

(** [d.get(key, default)]. *)
Definition get (d : gmap string json) (key : string) (dflt : json) : json :=
  default dflt (d !! key).

Section Cell.

(** [date.today().isoformat()]. *)
Variable today : string.

(** The dictionary built for one item. *)
Definition new_row (receipt_data item : gmap string json) : gmap string json :=
  <["Date" := get receipt_data "date" (JStr today)]>
  (<["Vendor" := get receipt_data "vendor" (JStr EmptyString)]>
  (<["Name" := get item "name" (JStr EmptyString)]>
  (<["Quantity" := get item "quantity" (JInt 1)]>
  (<["Price" := get item "price" (JInt 0)]>
  (<["Category" := get item "category" (JStr "Uncategorized")]>
  (<["Payment method" := get receipt_data "payment_method" (JStr "Unknown")]> ∅)))))).

(** [item['name']], read by the [print] that opens the loop body. *)
Definition item_name (item : json) : pyresult json :=
  match item with
  | JObj m =>
      match m !! "name" with
      | Some v => Return v
      | None => Raise (KeyError "name")
      end
  | _ => Raise TypeError
  end.

(** The loop body, item after item; what is printed is left out. *)
Fixpoint add_rows (receipt_data : gmap string json) (items : list json)
  (new_rows : list (gmap string json)) : pyresult (list (gmap string json)) :=
  match items with
  | [] => Return new_rows
  | item :: rest =>
      _ ← item_name item;
      match item with
      | JObj m => add_rows receipt_data rest (new_rows ++ [new_row receipt_data m])
      | _ => Raise TypeError
      end
  end.

(** [for item in receipt_data['items']] from [new_rows = []].  Iterating a
    string or a dictionary yields strings, which cannot be subscripted by
    'name'; the other values are not iterable. *)
Definition build_new_rows (receipt_data : gmap string json)
  : pyresult (list (gmap string json)) :=
  match receipt_data !! "items" with
  | None => Raise (KeyError "items")
  | Some (JArr items) => add_rows receipt_data items []
  | Some (JStr s) => if String.eqb s EmptyString then Return [] else Raise TypeError
  | Some (JObj m) => if decide (size m = 0%nat) then Return [] else Raise TypeError
  | Some _ => Raise TypeError
  end.

End Cell.

End Notebook.

(** ** The Price column as pandas holds it *)

(** [filtered_df['Price'].sum()] adds in the number type read_csv gave the
    column: int64 when every price is written as a whole number, float64
    otherwise.  An int64 addition wraps around at 64 bits; a float64
    addition rounds to binary64. *)
Definition int64_wrap (z : Z) : Z := (z + 2 ^ 63) mod 2 ^ 64 - 2 ^ 63.

Definition sum_int64 (prices : list Z) : Z :=
  fold_left (fun acc p => int64_wrap (acc + p)) prices 0.

(** The sum of whole numbers, without a bound. *)
Definition exact_total (prices : list Z) : Z := fold_left Z.add prices 0.

(** The whole number a price of an int64 column is. *)
Definition whole_price (q : Q) : Z := Qnum q / Zpos (Qden q).

Definition prices_int64 (df : DataFrame) : list Z :=
  map (fun r => whole_price (Price r)) df.

(** The prices of a float64 column, [binary64_of] being the binary64 number
    read_csv stores for a decimal price. *)
Definition prices_binary64 (binary64_of : Q -> float) (df : DataFrame) : list float :=
  map (fun r => binary64_of (Price r)) df.

(** [custom_sum] with the sum of the Price column left open: the same
    conversion and the same filter, then [series_sum] for
    [filtered_df['Price'].sum()]. *)
Definition custom_sum_with {N : Type} (series_sum : DataFrame -> N)
  (to_datetime : value -> option datetime)
  (time_range : gmap string value) (expenses_df : DataFrame)
  : DataFrame * pyresult N :=
  match convert_dates to_datetime expenses_df with
  | None => (expenses_df, Raise DateParseError)
  | Some converted =>
      (converted,
       filtered ← filtered_df to_datetime time_range converted;
       Return (series_sum filtered))
  end.

(** [custom_sum] on a ledger whose Price column is int64. *)
Definition custom_sum_int64 (to_datetime : value -> option datetime)
  (time_range : gmap string value) (expenses_df : DataFrame)
  : DataFrame * pyresult Z :=
  custom_sum_with (fun filtered => sum_int64 (prices_int64 filtered))
    to_datetime time_range expenses_df.

(** [custom_sum] on a ledger whose Price column is float64, the prices
    added one after the other from 0 as a short column is. *)
Definition custom_sum_binary64 (binary64_of : Q -> float)
  (to_datetime : value -> option datetime)
  (time_range : gmap string value) (expenses_df : DataFrame)
  : DataFrame * pyresult float :=
  custom_sum_with (fun filtered => binary64_sum (prices_binary64 binary64_of filtered))
    to_datetime time_range expenses_df.

(** A binary64 number, taken apart, is not below 0. *)
Definition sf_nonneg (x : spec_float) : bool := SFleb (S754_zero false) x.

(** An order of additions.  A long float64 column is not added term after
    term but pairwise, in blocks; a [summation] is any way of adding the
    terms up. *)
Inductive summation : Type :=
  | Term (x : float)
  | Plus (a b : summation).

Fixpoint total (t : summation) : float :=
  match t with
  | Term x => x
  | Plus a b => PrimFloat.add (total a) (total b)
  end.

Fixpoint terms (t : summation) : list float :=
  match t with
  | Term x => [x]
  | Plus a b => terms a ++ terms b
  end.


(** ** Notions used to state further laws *)

(** The records [custom_sum] adds up: the rows its filter keeps of the
    converted frame. *)
Definition kept_rows (to_datetime : value -> option datetime)
  (time_range : gmap string value) (expenses_df : DataFrame) : pyresult DataFrame :=
  match convert_dates to_datetime expenses_df with
  | None => Raise DateParseError
  | Some converted => filtered_df to_datetime time_range converted
  end.

(** The keys [custom_sum] looks up. *)
Definition time_range_keys : list string :=
  ["specific_date"; "start_date"; "end_date"; "month"; "year"].

(** The months of a year. *)
Definition months : list Z := [1; 2; 3; 4; 5; 6; 7; 8; 9; 10; 11; 12].

(** The columns of expenses.csv. *)
Definition ledger_columns : gset string :=
  {[ "Date"; "Vendor"; "Name"; "Quantity"; "Price"; "Category"; "Payment method" ]}.

(** ** The ledger of the worked example *)

Module Scenario.

(** Two purchases, on May 11 and May 16, 2024, as read from the CSV file. *)
Definition purchase (date : string) (quantity : Z) (price : Q) : Row :=
  mkRow (DateStr date) "Uniqlo Metrotown" "hoodie" quantity price "clothing" "credit".

Definition ledger : DataFrame :=
  [purchase "2024-05-11" 1 49.90%Q; purchase "2024-05-16" 3 22.73%Q].

(** The same ledger once its Date column has been converted. *)
Definition on_day (y m d : Z) (quantity : Z) (price : Q) : Row :=
  mkRow (DateVal (Stamp (midnight y m d)))
        "Uniqlo Metrotown" "hoodie" quantity price "clothing" "credit".

Definition ledger_converted : DataFrame :=
  [on_day 2024 5 11 1 49.90%Q; on_day 2024 5 16 3 22.73%Q].

(** The ledger with other quantities. *)
Definition ledger_requantified : DataFrame :=
  [purchase "2024-05-11" 10 49.90%Q; purchase "2024-05-16" 0 22.73%Q].



(** The arguments of a tool call, as JSON text. *)
Definition year_arguments : string :=
  "{" +:+ FlatJson.quoted "year" +:+ ":2024}".

Definition range_arguments : string :=
  "{" +:+ FlatJson.quoted "start_date" +:+ ":" +:+ FlatJson.quoted "2024-05-11"
  +:+ "," +:+ FlatJson.quoted "end_date" +:+ ":" +:+ FlatJson.quoted "2024-05-16" +:+ "}".

(** A reply that invokes one tool. *)
Definition tool_reply (tool arguments : string) : ChatCompletion :=
  mkChatCompletion
    [mkChoice (mkMessage None (Some [mkToolCall (mkToolFunction tool arguments)]))].

(** A reply that invokes no tool. *)
Definition text_reply (text : string) : ChatCompletion :=
  mkChatCompletion [mkChoice (mkMessage (Some text) None)].

(** Receipts as decoded from the arguments of itemize_receipt: one whose
    only item has a name and nothing else, one whose only item has a price
    and no name. *)
Definition named_item : gmap string Notebook.json :=
  {[ "name" := Notebook.JStr "hoodie" ]}.

Definition receipt_named : gmap string Notebook.json :=
  {[ "items" := Notebook.JArr (Notebook.JObj <$> [named_item]) ]}.

Definition receipt_unnamed : gmap string Notebook.json :=
  {[ "vendor" := Notebook.JStr "Uniqlo Metrotown";
     "items" := Notebook.JArr [Notebook.JObj {[ "price" := Notebook.JNum 49.90%Q ]}] ]}.

End Scenario.

(** ** More ledgers for the worked example *)

Module MoreScenario.

(** A record whose date is missing. *)
Definition undated : Row :=
  mkRow (DateVal NaT) "Uniqlo Metrotown" "socks" 2 9.90%Q "clothing" "cash".

(** A ledger of whole prices, which read_csv holds as int64: the largest
    int64 number, and 1. *)
Definition ledger_whole : DataFrame :=
  [Scenario.purchase "2024-05-11" 1 9223372036854775807%Q;
   Scenario.purchase "2024-05-16" 1 1%Q].

(** The ledger with its prices rounded to whole numbers, which read_csv
    holds as int64. *)
Definition ledger_rounded : DataFrame :=
  [Scenario.purchase "2024-05-11" 1 50%Q; Scenario.purchase "2024-05-16" 3 23%Q].

(** The binary64 number nearest to a ratio of two numbers below 2^53: the
    quotient of the two, each exact in binary64, rounded once. *)
Definition binary64_of_ratio (q : Q) : float :=
  PrimFloat.div (PrimFloat.of_uint63 (Uint63.of_Z (Qnum q)))
                (PrimFloat.of_uint63 (Uint63.of_pos (Qden q))).

(** The two prices of the ledger added last first. *)
Definition last_first : summation :=
  Plus (Term (binary64_of_ratio 22.73%Q)) (Term (binary64_of_ratio 49.90%Q)).

End MoreScenario.

(** ** Facts about timestamps *)

Section TimestampFacts.

Lemma ts_compare_eq (a b : Timestamp) : ts_compare a b = Eq <-> a = b.
Proof.
  destruct a as [ya ma da na], b as [yb mb db nb]; unfold ts_compare; simpl.
  split.
  - destruct (Z.compare_spec ya yb); try discriminate.
    destruct (Z.compare_spec ma mb); try discriminate.
    destruct (Z.compare_spec da db); try discriminate.
    destruct (Z.compare_spec na nb); try discriminate.
    intros _; congruence.
  - intros [= -> -> -> ->]. now rewrite !Z.compare_refl.
Qed.


Lemma ts_compare_lt (a b : Timestamp) : ts_compare a b = Lt <-> ts_lt a b.
Proof.
  destruct a as [ya ma da na], b as [yb mb db nb]; unfold ts_compare, ts_lt; simpl.
  destruct (Z.compare_spec ya yb);
    [destruct (Z.compare_spec ma mb);
       [destruct (Z.compare_spec da db);
          [destruct (Z.compare_spec na nb)| |]| |]| |];
    split; intros; try discriminate; try reflexivity; try lia.
Qed.

Lemma ts_leb_le (a b : Timestamp) : ts_leb a b = true <-> ts_le a b.
Proof.
  unfold ts_leb, ts_le. rewrite <- ts_compare_lt, <- ts_compare_eq.
  destruct (ts_compare a b); split; intros; try tauto; try congruence.
  destruct H; congruence.
Qed.



Lemma dt_between (d : datetime) (s e : Timestamp) :
  dt_leb (Stamp s) d && dt_leb d (Stamp e) = true
  <-> exists t, d = Stamp t /\ ts_le s t /\ ts_le t e.
Proof.
  destruct d as [|x]; simpl.
  - split; [discriminate | intros (t & ? & _); discriminate].
  - rewrite andb_true_iff, !ts_leb_le. split.
    + intros [? ?]. now exists x.
    + intros (t & [= ->] & ? & ?). now split.
Qed.

Lemma eq_int_year (d : datetime) (y : Z) :
  eq_int (dt_year d) (VInt y) = true <-> exists t, d = Stamp t /\ ts_year t = y.
Proof.
  destruct d as [|x]; simpl.
  - split; [discriminate | intros (t & ? & _); discriminate].
  - rewrite Z.eqb_eq. split.
    + intros. now exists x.
    + now intros (t & [= ->] & ?).
Qed.

Lemma eq_int_month_year (d : datetime) (m y : Z) :
  eq_int (dt_month d) (VInt m) && eq_int (dt_year d) (VInt y) = true
  <-> exists t, d = Stamp t /\ ts_month t = m /\ ts_year t = y.
Proof.
  destruct d as [|x]; simpl.
  - split; [discriminate | intros (t & ? & _); discriminate].
  - rewrite andb_true_iff, !Z.eqb_eq. split.
    + intros [? ?]. now exists x.
    + now intros (t & [= ->] & ? & ?).
Qed.

End TimestampFacts.

(** ** Facts about the Price column *)

Section PriceColumnFacts.

(** *** int64 sums *)

Lemma int64_wrap_small (z : Z) : - 2 ^ 63 <= z < 2 ^ 63 -> int64_wrap z = z.
Proof. intros H. unfold int64_wrap. rewrite Z.mod_small; lia. Qed.

Lemma fold_add_ge (prices : list Z) :
  Forall (fun p => 0 <= p) prices ->
  forall acc : Z, acc <= fold_left Z.add prices acc.
Proof.
  induction 1 as [|p prices Hp _ IH]; intros acc; simpl; [lia|].
  specialize (IH (acc + p)). lia.
Qed.

Lemma fold_int64_exact (prices : list Z) :
  Forall (fun p => 0 <= p) prices ->
  forall acc : Z,
    0 <= acc -> fold_left Z.add prices acc < 2 ^ 63 ->
    fold_left (fun a p => int64_wrap (a + p)) prices acc = fold_left Z.add prices acc.
Proof.
  induction 1 as [|p prices Hp Hrest IH]; intros acc Hacc Hbound; simpl in *;
    [reflexivity|].
  pose proof (fold_add_ge prices Hrest (acc + p)) as Hge.
  rewrite int64_wrap_small by lia. apply IH; [lia | assumption].
Qed.

Lemma sum_int64_exact (prices : list Z) :
  Forall (fun p => 0 <= p) prices -> exact_total prices < 2 ^ 63 ->
  sum_int64 prices = exact_total prices /\ 0 <= exact_total prices.
Proof.
  intros Hpos Hbound. split.
  - apply fold_int64_exact; [assumption | lia | assumption].
  - apply (fold_add_ge prices Hpos 0).
Qed.

(** *** float64 sums *)

Lemma shr_1_nonneg (mrs : shr_record) : 0 <= shr_m mrs -> 0 <= shr_m (shr_1 mrs).
Proof.
  destruct mrs as [m r s]. simpl. destruct m as [|p|p]; simpl; try lia.
  destruct p; simpl; lia.
Qed.

Lemma iter_pos_inv {A : Type} (P : A -> Prop) (f : A -> A) :
  (forall x, P x -> P (f x)) -> forall n x, P x -> P (SpecFloat.iter_pos f n x).
Proof. intros Hf. induction n as [n IH|n IH|]; intros x Hx; simpl; auto. Qed.

Lemma shr_nonneg (mrs : shr_record) (e n : Z) :
  0 <= shr_m mrs -> 0 <= shr_m (fst (shr mrs e n)).
Proof.
  intros H. unfold shr. destruct n; simpl; try assumption.
  apply (iter_pos_inv (fun x => 0 <= shr_m x)); [apply shr_1_nonneg | assumption].
Qed.

Lemma shr_record_of_loc_m (m : Z) (l : location) : shr_m (shr_record_of_loc m l) = m.
Proof. destruct l as [|[]]; reflexivity. Qed.

Lemma round_nearest_even_nonneg (m : Z) (l : location) :
  0 <= m -> 0 <= round_nearest_even m l.
Proof.
  intros H. unfold round_nearest_even. destruct l as [|[]]; try lia.
  destruct (Z.even m); lia.
Qed.

Lemma binary_round_aux_nonneg (prec emax m e : Z) (l : location) :
  0 <= m -> sf_nonneg (binary_round_aux prec emax false m e l) = true.
Proof.
  intros H. unfold binary_round_aux, shr_fexp.
  destruct (shr (shr_record_of_loc m l) e _) as [mrs' e'] eqn:H1.
  assert (H1' : 0 <= shr_m mrs').
  { change mrs' with (fst (mrs', e')). rewrite <- H1. apply shr_nonneg.
    now rewrite shr_record_of_loc_m. }
  destruct (shr (shr_record_of_loc _ loc_Exact) e' _) as [mrs'' e''] eqn:H2.
  assert (H2' : 0 <= shr_m mrs'').
  { change mrs'' with (fst (mrs'', e'')). rewrite <- H2. apply shr_nonneg.
    rewrite shr_record_of_loc_m. now apply round_nearest_even_nonneg. }
  destruct (shr_m mrs'') as [|p|p]; try reflexivity; [|lia].
  destruct (e'' <=? emax - prec); reflexivity.
Qed.

Lemma SFadd_nonneg (prec emax : Z) (x y : spec_float) :
  sf_nonneg x = true -> sf_nonneg y = true -> sf_nonneg (SFadd prec emax x y) = true.
Proof.
  destruct x as [sx|sx| |sx mx ex], y as [sy|sy| |sy my ey];
    try discriminate; try (destruct sx; discriminate); try (destruct sy; discriminate);
    try (destruct sx, sy; try discriminate; reflexivity).
  all: try (destruct sx; try discriminate; destruct sy; try discriminate; try reflexivity).
  all: try (intros; assumption).
  intros _ _. unfold SFadd, cond_Zopp, binary_normalize.
  match goal with
  | |- context [Zpos ?a + Zpos ?b] => change (Zpos a + Zpos b) with (Zpos (a + b))
  end.
  unfold binary_round. destruct (shl_align _ _ _) as [mz ez'].
  apply binary_round_aux_nonneg. lia.
Qed.

(** The sum of two binary64 numbers that are not below 0 is not below 0,
    rounded as it is. *)
Lemma float_add_nonneg (x y : float) :
  (0 <=? x)%float = true -> (0 <=? y)%float = true -> (0 <=? x + y)%float = true.
Proof. rewrite !leb_spec, add_spec. apply SFadd_nonneg. Qed.

Lemma fold_binary64_nonneg (prices : list float) :
  Forall (fun x => (0 <=? x)%float = true) prices ->
  forall acc : float,
    (0 <=? acc)%float = true ->
    (0 <=? fold_left PrimFloat.add prices acc)%float = true.
Proof.
  induction 1 as [|x prices Hx _ IH]; intros acc Hacc; simpl; [assumption|].
  apply IH. now apply float_add_nonneg.
Qed.

Lemma binary64_sum_nonneg (prices : list float) :
  Forall (fun x => (0 <=? x)%float = true) prices ->
  (0 <=? binary64_sum prices)%float = true.
Proof. intros H. now apply (fold_binary64_nonneg prices H). Qed.

Lemma total_nonneg (t : summation) :
  Forall (fun x => (0 <=? x)%float = true) (terms t) -> (0 <=? total t)%float = true.
Proof.
  induction t as [x|a IHa b IHb]; simpl; intros H.
  - now inversion H.
  - apply Forall_app in H as [Ha Hb]. apply float_add_nonneg; auto.
Qed.

End PriceColumnFacts.

(** ** Facts about custom_sum *)

Section CustomSumFacts.

Variable to_datetime : value -> option datetime.


Lemma custom_sum_converted (time_range : gmap string value) (df converted : DataFrame) :
  convert_dates to_datetime df = Some converted ->
  custom_sum to_datetime time_range df
  = (converted, filtered ← filtered_df to_datetime time_range converted; Return (sum_price filtered)).
Proof. intros H. unfold custom_sum. now rewrite H. Qed.

(** The filter taken under each shape of [time_range]. *)


Lemma filtered_date_range (time_range : gmap string value) (df : DataFrame) vs ve s e :
  time_range !! "specific_date" = None ->
  time_range !! "start_date" = Some vs ->
  time_range !! "end_date" = Some ve ->
  to_datetime vs = Some s ->
  to_datetime ve = Some e ->
  filtered_df to_datetime time_range df
  = Return (List.filter (fun r => dt_leb s (row_date r) && dt_leb (row_date r) e) df).
Proof.
  intros H0 Hs He Hvs Hve. unfold filtered_df, scalar_to_datetime.
  now rewrite H0, Hs, He, Hvs, Hve.
Qed.

Lemma filtered_month_year (time_range : gmap string value) (df : DataFrame) month year :
  time_range !! "specific_date" = None ->
  time_range !! "start_date" = None \/ time_range !! "end_date" = None ->
  time_range !! "month" = Some month ->
  time_range !! "year" = Some year ->
  filtered_df to_datetime time_range df
  = Return (List.filter
              (fun r => eq_int (dt_month (row_date r)) month
                        && eq_int (dt_year (row_date r)) year) df).
Proof.
  intros H0 Hse Hm Hy. unfold filtered_df. rewrite H0, Hm, Hy.
  destruct Hse as [-> | ->]; [reflexivity|].
  now destruct (time_range !! "start_date").
Qed.

Lemma filtered_year (time_range : gmap string value) (df : DataFrame) year :
  time_range !! "specific_date" = None ->
  time_range !! "start_date" = None \/ time_range !! "end_date" = None ->
  time_range !! "month" = None ->
  time_range !! "year" = Some year ->
  filtered_df to_datetime time_range df
  = Return (List.filter (fun r => eq_int (dt_year (row_date r)) year) df).
Proof.
  intros H0 Hse Hm Hy. unfold filtered_df. rewrite H0, Hm, Hy.
  destruct Hse as [-> | ->]; [reflexivity|].
  now destruct (time_range !! "start_date").
Qed.

Lemma filtered_invalid (time_range : gmap string value) (df : DataFrame) :
  time_range !! "specific_date" = None ->
  time_range !! "start_date" = None \/ time_range !! "end_date" = None ->
  time_range !! "year" = None ->
  filtered_df to_datetime time_range df = Raise InvalidTimeRange.
Proof.
  intros H0 Hse Hy. unfold filtered_df. rewrite H0, Hy.
  destruct Hse as [-> | ->].
  - now destruct (time_range !! "month").
  - destruct (time_range !! "start_date"); now destruct (time_range !! "month").
Qed.


(** *** The filter reads the Date column only *)

Lemma filtered_df_date_test (time_range : gmap string value) (df : DataFrame) :
  filtered_df to_datetime time_range df
  = test ← date_test to_datetime time_range;
    Return (List.filter (fun r => test (row_date r)) df).
Proof.
  unfold filtered_df, date_test.
  destruct (time_range !! "specific_date") as [v|].
  { destruct (scalar_to_datetime to_datetime v); reflexivity. }
  destruct (time_range !! "start_date") as [vs|], (time_range !! "end_date") as [ve|];
    try (destruct (scalar_to_datetime to_datetime vs);
         [destruct (scalar_to_datetime to_datetime ve)|]; reflexivity);
    destruct (time_range !! "month"), (time_range !! "year"); reflexivity.
Qed.

Lemma valid_date_test (time_range : gmap string value) :
  valid_time_range to_datetime time_range = true ->
  exists test, date_test to_datetime time_range = Return test.
Proof.
  unfold valid_time_range, date_test, parses, has_key, scalar_to_datetime.
  destruct (time_range !! "specific_date") as [v|].
  { destruct (to_datetime v); [eauto | discriminate]. }
  destruct (time_range !! "start_date") as [vs|], (time_range !! "end_date") as [ve|].
  - destruct (to_datetime vs); [|discriminate].
    destruct (to_datetime ve); [eauto | discriminate].
  - destruct (time_range !! "month"), (time_range !! "year"); eauto; discriminate.
  - destruct (time_range !! "month"), (time_range !! "year"); eauto; discriminate.
  - destruct (time_range !! "month"), (time_range !! "year"); eauto; discriminate.
Qed.

Lemma recognized_false (time_range : gmap string value) :
  recognized time_range = false <->
  time_range !! "specific_date" = None
  /\ (time_range !! "start_date" = None \/ time_range !! "end_date" = None)
  /\ time_range !! "year" = None.
Proof.
  unfold recognized, has_key.
  destruct (time_range !! "specific_date"), (time_range !! "start_date"),
    (time_range !! "end_date"), (time_range !! "month"), (time_range !! "year");
    simpl; split; intros; try discriminate; try tauto;
    intuition discriminate.
Qed.

(** *** Conversion of the Date column *)

Lemma convert_dates_rows (df converted : DataFrame) :
  convert_dates to_datetime df = Some converted ->
  Forall2 (fun r r' => exists d, cell_to_datetime to_datetime (Date r) = Some d
                                 /\ r' = set_Date (DateVal d) r) df converted.
Proof.
  revert converted. induction df as [|r df IH]; intros converted H; simpl in H.
  - injection H as <-. constructor.
  - unfold convert_row in H.
    destruct (cell_to_datetime to_datetime (Date r)) as [d|] eqn:Hd; [|discriminate].
    destruct (convert_dates to_datetime df) as [rest|]; [|discriminate].
    injection H as <-. constructor; eauto.
Qed.

Lemma convert_dates_None (df : DataFrame) :
  convert_dates to_datetime df = None
  <-> Exists (fun r => cell_to_datetime to_datetime (Date r) = None) df.
Proof.
  induction df as [|r df IH]; simpl.
  - split; [discriminate | intros H; inversion H].
  - unfold convert_row.
    destruct (cell_to_datetime to_datetime (Date r)) as [d|] eqn:Hd.
    + destruct (convert_dates to_datetime df) as [rest|].
      * split; [discriminate|]. intros H. inversion H as [? ? Hr|? ? Hrest]; subst.
        -- congruence.
        -- now apply IH in Hrest.
      * split; [|reflexivity]. intros _. right. now apply IH.
    + split; [|reflexivity]. intros _. now left.
Qed.

Lemma with_converted {N : Type} (series_sum : DataFrame -> N)
  (time_range : gmap string value) (df converted : DataFrame) :
  convert_dates to_datetime df = Some converted ->
  custom_sum_with series_sum to_datetime time_range df
  = (converted,
     filtered ← filtered_df to_datetime time_range converted;
     Return (series_sum filtered)).
Proof. intros H. unfold custom_sum_with. now rewrite H. Qed.

Lemma convert_dates_total (df : DataFrame) :
  Forall (fun r => is_Some (cell_to_datetime to_datetime (Date r))) df ->
  is_Some (convert_dates to_datetime df).
Proof.
  induction 1 as [|r df [d Hd] _ [rest IH]]; simpl; [eauto|].
  unfold convert_row. rewrite Hd, IH. eauto.
Qed.

Lemma convert_dates_idempotent (df : DataFrame) :
  Forall (fun r => exists d, Date r = DateVal d) df ->
  convert_dates to_datetime df = Some df.
Proof.
  induction 1 as [|r df [d Hd] _ IH]; simpl; [reflexivity|].
  unfold convert_row. rewrite Hd, IH. simpl.
  destruct r; simpl in *; now subst.
Qed.

Lemma convert_dates_same (df df' : DataFrame) :
  Forall2 same_date_price df df' ->
  match convert_dates to_datetime df, convert_dates to_datetime df' with
  | Some c, Some c' =>
      Forall2 (fun r r' => row_date r = row_date r' /\ Price r = Price r') c c'
  | None, None => True
  | _, _ => False
  end.
Proof.
  induction 1 as [|r r' df df' [Hd Hp] _ IH]; simpl; [constructor|].
  unfold convert_row. rewrite <- Hd.
  destruct (cell_to_datetime to_datetime (Date r)) as [d|]; [|exact I].
  destruct (convert_dates to_datetime df), (convert_dates to_datetime df');
    try contradiction; try exact I.
  constructor; [|assumption]. now split.
Qed.

(** *** Sums *)

Lemma fold_prices_filter_same (test : datetime -> bool) (c c' : DataFrame) :
  Forall2 (fun r r' => row_date r = row_date r' /\ Price r = Price r') c c' ->
  forall acc : Q,
    fold_left Qplus (map Price (List.filter (fun r => test (row_date r)) c)) acc
    = fold_left Qplus (map Price (List.filter (fun r => test (row_date r)) c')) acc.
Proof.
  induction 1 as [|r r' c c' [Hd Hp] _ IH]; intros acc; simpl; [reflexivity|].
  rewrite <- Hd. destruct (test (row_date r)); [|apply IH].
  simpl. rewrite Hp. apply IH.
Qed.

Lemma sum_price_filter_same (test : datetime -> bool) (c c' : DataFrame) :
  Forall2 (fun r r' => row_date r = row_date r' /\ Price r = Price r') c c' ->
  sum_price (List.filter (fun r => test (row_date r)) c)
  = sum_price (List.filter (fun r => test (row_date r)) c').
Proof. intros H. unfold sum_price. now apply fold_prices_filter_same. Qed.

Lemma filter_Forall {A : Type} (P : A -> Prop) (f : A -> bool) (l : list A) :
  Forall P l -> Forall P (List.filter f l).
Proof.
  induction 1 as [|x l Hx _ IH]; simpl; [constructor|].
  destruct (f x); [constructor|]; assumption.
Qed.

Lemma convert_dates_prices (P : Q -> Prop) (df converted : DataFrame) :
  convert_dates to_datetime df = Some converted ->
  Forall (fun r => P (Price r)) df -> Forall (fun r => P (Price r)) converted.
Proof.
  intros Hc%convert_dates_rows. induction Hc as [|r r' df c (d & _ & ->) _ IH].
  - constructor.
  - intros H. inversion H; subst. constructor; [assumption | now apply IH].
Qed.

(** *** The claims about custom_sum *)

(** C2. The value [custom_sum] returns is the sum of the Price column over
    the rows its filter keeps, and of nothing else: two ledgers that agree
    row by row on Date and Price give the same result whatever their
    quantities (and vendors, names, categories, payment methods) are. *)
Theorem custom_sum_sums_price_only
  (time_range : gmap string value) (expenses_df : DataFrame) :
  (forall converted kept,
     convert_dates to_datetime expenses_df = Some converted ->
     filtered_df to_datetime time_range converted = Return kept ->
     snd (custom_sum to_datetime time_range expenses_df)
     = Return (fold_left Qplus (map Price kept) 0%Q))
  /\ (forall other : DataFrame,
     Forall2 same_date_price expenses_df other ->
     snd (custom_sum to_datetime time_range expenses_df)
     = snd (custom_sum to_datetime time_range other)).
Proof.
  split.
  - intros converted kept Hc Hf.
    rewrite (custom_sum_converted _ _ _ Hc). simpl. now rewrite Hf.
  - intros other Hsame. apply convert_dates_same in Hsame.
    unfold custom_sum.
    destruct (convert_dates to_datetime expenses_df) as [c|],
      (convert_dates to_datetime other) as [c'|]; try contradiction; [|reflexivity].
    simpl. rewrite !filtered_df_date_test.
    destruct (date_test to_datetime time_range) as [test|e]; [|reflexivity].
    simpl. f_equal. now apply sum_price_filter_same.
Qed.

(** C3 as amended. [custom_sum] leaves the number and the order of the
    rows and every column but Date as they were, and it overwrites the Date
    column: when every Date cell can be read, each row of the frame after
    the call is the row before it with its Date cell replaced by the
    datetime it converts to.  When some cell cannot be read the conversion
    raises and nothing is written.  The frame after the call is the frame
    before it only in that case and when the Date column already held
    datetimes.  In every case each cell still reads as the datetime it read
    as before. *)
Theorem custom_sum_frame (time_range : gmap string value) (expenses_df : DataFrame) :
  (Forall (fun r => is_Some (cell_to_datetime to_datetime (Date r))) expenses_df ->
   Forall2 (fun r r' => exists d, cell_to_datetime to_datetime (Date r) = Some d
                                  /\ r' = set_Date (DateVal d) r)
     expenses_df (fst (custom_sum to_datetime time_range expenses_df)))
  /\ (Exists (fun r => cell_to_datetime to_datetime (Date r) = None) expenses_df ->
      custom_sum to_datetime time_range expenses_df = (expenses_df, Raise DateParseError))
  /\ (fst (custom_sum to_datetime time_range expenses_df) = expenses_df
      <-> Exists (fun r => cell_to_datetime to_datetime (Date r) = None) expenses_df
          \/ Forall (fun r => exists d, Date r = DateVal d) expenses_df)
  /\ Forall2 (fun r r' => cell_to_datetime to_datetime (Date r')
                          = cell_to_datetime to_datetime (Date r))
       expenses_df (fst (custom_sum to_datetime time_range expenses_df)).
Proof.
  split; [|split; [|split]].
  - intros [c Hc]%convert_dates_total.
    rewrite (custom_sum_converted _ _ _ Hc). simpl. now apply convert_dates_rows.
  - intros Hc%convert_dates_None. unfold custom_sum. now rewrite Hc.
  - split.
    + intros Hsame.
      destruct (convert_dates to_datetime expenses_df) as [c|] eqn:Hc.
      * right. rewrite (custom_sum_converted _ _ _ Hc) in Hsame. simpl in Hsame.
        subst c. apply convert_dates_rows in Hc. clear - Hc.
        induction expenses_df as [|r df IH]; [constructor|].
        inversion Hc as [|? ? ? ? (d & _ & Hr) Hrest]; subst.
        constructor; [|now apply IH].
        exists d. rewrite Hr at 1. now destruct r.
      * left. now apply convert_dates_None.
    + intros [Hc%convert_dates_None | Hc%convert_dates_idempotent];
        unfold custom_sum; now rewrite Hc.
  - unfold custom_sum.
    destruct (convert_dates to_datetime expenses_df) as [c|] eqn:Hc; simpl.
    + apply convert_dates_rows in Hc. eapply Forall2_impl; [exact Hc|].
      intros r r' (d & Hd & ->). now rewrite Hd.
    + apply Forall_Forall2_diag, Forall_forall. now intros r _.
Qed.


(** C6. A [time_range] in which no recognized key combination is present,
    the empty dictionary in particular, makes [custom_sum] raise: the call
    returns no value on any ledger, and what it raises on a ledger whose
    dates can be read is the invalid-time-range error. *)
Theorem custom_sum_unrecognized (expenses_df : DataFrame) :
  (forall time_range : gmap string value,
     recognized time_range = false ->
     is_return (snd (custom_sum to_datetime time_range expenses_df)) = false
     /\ forall converted,
          convert_dates to_datetime expenses_df = Some converted ->
          custom_sum to_datetime time_range expenses_df
          = (converted, Raise InvalidTimeRange))
  /\ is_return (snd (custom_sum to_datetime ∅ expenses_df)) = false
  /\ (forall converted,
        convert_dates to_datetime expenses_df = Some converted ->
        custom_sum to_datetime ∅ expenses_df = (converted, Raise InvalidTimeRange)).
Proof.
  assert (Hgen : forall time_range : gmap string value,
             recognized time_range = false ->
             is_return (snd (custom_sum to_datetime time_range expenses_df)) = false
             /\ forall converted,
                  convert_dates to_datetime expenses_df = Some converted ->
                  custom_sum to_datetime time_range expenses_df
                  = (converted, Raise InvalidTimeRange)).
  { intros time_range (H0 & Hse & Hy)%recognized_false.
    unfold custom_sum.
    destruct (convert_dates to_datetime expenses_df) as [c|]; simpl.
    - rewrite (filtered_invalid _ _ H0 Hse Hy). split; [reflexivity|].
      now intros converted [= ->].
    - split; [reflexivity | discriminate]. }
  split; [exact Hgen|]. apply (Hgen ∅). reflexivity.
Qed.

(** C7 as amended. With a valid [time_range] and a ledger whose dates can
    be read, [custom_sum] returns a value, and the value is 0 when the
    filter keeps no row: the exact 0, the int64 0 and the float64 0.0.
    Over non-negative prices the value of an int64 Price column is the true
    sum of the kept prices, and not negative, as long as that sum stays
    below 2^63; the value of a float64 Price column is not below 0, in
    whatever order and grouping the kept prices are added. *)
Theorem custom_sum_empty_and_nonneg
  (binary64_of : Q -> float)
  (time_range : gmap string value) (expenses_df converted : DataFrame) :
  valid_time_range to_datetime time_range = true ->
  convert_dates to_datetime expenses_df = Some converted ->
  exists kept,
    filtered_df to_datetime time_range converted = Return kept
    /\ (kept = [] ->
        snd (custom_sum to_datetime time_range expenses_df) = Return 0%Q
        /\ snd (custom_sum_int64 to_datetime time_range expenses_df) = Return 0
        /\ snd (custom_sum_binary64 binary64_of to_datetime time_range expenses_df)
           = Return 0%float)
    /\ (Forall (fun r => 0 <= whole_price (Price r)) expenses_df ->
        exact_total (prices_int64 kept) < 2 ^ 63 ->
        exists s, snd (custom_sum_int64 to_datetime time_range expenses_df) = Return s
                  /\ s = exact_total (prices_int64 kept) /\ 0 <= s)
    /\ (Forall (fun r => (0 <=? binary64_of (Price r))%float = true) expenses_df ->
        (exists x, snd (custom_sum_binary64 binary64_of to_datetime time_range expenses_df)
                   = Return x
                   /\ (0 <=? x)%float = true)
        /\ forall t : summation,
             Permutation (terms t) (prices_binary64 binary64_of kept) ->
             (0 <=? total t)%float = true).
Proof.
  intros [test Ht]%valid_date_test Hc.
  exists (List.filter (fun r => test (row_date r)) converted).
  unfold custom_sum_int64, custom_sum_binary64.
  rewrite (custom_sum_converted _ _ _ Hc), !(with_converted _ _ _ _ Hc),
    filtered_df_date_test, Ht. simpl.
  split; [reflexivity|]. split; [|split].
  - now intros ->.
  - intros Hpos Hbound.
    assert (Hkept : Forall (fun p => 0 <= p)
                      (prices_int64 (List.filter (fun r => test (row_date r)) converted))).
    { unfold prices_int64. apply Forall_map, filter_Forall.
      now apply (convert_dates_prices (fun q => 0 <= whole_price q) expenses_df). }
    destruct (sum_int64_exact _ Hkept Hbound) as [Hexact Hnonneg].
    eexists. split; [reflexivity|]. rewrite Hexact. now split.
  - intros Hpos.
    assert (Hkept : Forall (fun x => (0 <=? x)%float = true)
                      (prices_binary64 binary64_of
                         (List.filter (fun r => test (row_date r)) converted))).
    { unfold prices_binary64. apply Forall_map, filter_Forall.
      now apply (convert_dates_prices (fun q => (0 <=? binary64_of q)%float = true)
                   expenses_df). }
    split.
    + eexists. split; [reflexivity|]. now apply binary64_sum_nonneg.
    + intros t Hperm. apply total_nonneg.
      eapply Permutation_Forall; [symmetry; exact Hperm | exact Hkept].
Qed.

(** C9. A key that is present does not by itself make a [time_range]
    valid: start_date without end_date, end_date without start_date, and
    month without year each raise the invalid-time-range error, as does
    every dictionary that has some key but no recognized combination.
    No sum, not even 0, is returned. *)
Theorem custom_sum_partial_keys
  (v : value) (expenses_df converted : DataFrame) :
  convert_dates to_datetime expenses_df = Some converted ->
  custom_sum to_datetime {[ "start_date" := v ]} expenses_df
  = (converted, Raise InvalidTimeRange)
  /\ custom_sum to_datetime {[ "end_date" := v ]} expenses_df
     = (converted, Raise InvalidTimeRange)
  /\ custom_sum to_datetime {[ "month" := v ]} expenses_df
     = (converted, Raise InvalidTimeRange)
  /\ (forall (time_range : gmap string value) key,
        time_range !! key = Some v ->
        recognized time_range = false ->
        custom_sum to_datetime time_range expenses_df
        = (converted, Raise InvalidTimeRange)
        /\ forall s, snd (custom_sum to_datetime time_range expenses_df) <> Return s).
Proof.
  intros Hc.
  assert (Hgen : forall time_range : gmap string value,
             recognized time_range = false ->
             custom_sum to_datetime time_range expenses_df
             = (converted, Raise InvalidTimeRange)).
  { intros time_range (H0 & Hse & Hy)%recognized_false.
    rewrite (custom_sum_converted _ _ _ Hc).
    now rewrite (filtered_invalid _ _ H0 Hse Hy). }
  repeat split; try (apply Hgen; reflexivity).
  - now apply Hgen.
  - intros s. rewrite Hgen by assumption. discriminate.
Qed.

End CustomSumFacts.

(** ** Facts about get_sum *)

Section GetSumFacts.

Variable to_datetime : value -> option datetime.
Variable json_loads : string -> option (gmap string value).

Lemma get_sum_first_tool (response : ChatCompletion) (df : DataFrame)
  (choice : Choice) (others : list Choice) (call : ToolCall) (more : list ToolCall) :
  choices response = choice :: others ->
  tool_calls (message choice) = Some (call :: more) ->
  get_sum to_datetime json_loads response df
  = if String.eqb (name (function call)) "custom_sum" then
      match json_loads (arguments (function call)) with
      | None =>
          mkOutcome df [PrintTimeRange (arguments (function call))] (Raise JSONDecodeError)
      | Some time_range =>
          mkOutcome (fst (custom_sum to_datetime time_range df))
                    [PrintTimeRange (arguments (function call))]
                    (s ← snd (custom_sum to_datetime time_range df); Return (Some s))
      end
    else
      mkOutcome df
                [PrintTimeRange (arguments (function call));
                 PrintWarning (content (message choice))]
                (Return None).
Proof.
  intros Hc Ht. unfold get_sum, first_message, first_tool_call, invokes_custom_sum.
  rewrite Hc. simpl. rewrite Ht. simpl. rewrite Ht. simpl.
  destruct (String.eqb (name (function call)) "custom_sum"); [|reflexivity].
  destruct (json_loads (arguments (function call))) as [time_range|]; [|reflexivity].
  now destruct (custom_sum to_datetime time_range df).
Qed.

(** The [print] that opens [get_sum] reads the first tool call whether or
    not there is one: a reply that invokes no tool ends the call with an
    exception before the branch written for it is reached. *)
Lemma get_sum_without_tool (response : ChatCompletion) (df : DataFrame)
  (choice : Choice) (others : list Choice) :
  choices response = choice :: others ->
  (tool_calls (message choice) = None ->
   get_sum to_datetime json_loads response df = mkOutcome df [] (Raise TypeError))
  /\ (tool_calls (message choice) = Some [] ->
      get_sum to_datetime json_loads response df = mkOutcome df [] (Raise IndexError)).
Proof.
  intros Hc. unfold get_sum, first_message, first_tool_call.
  rewrite Hc. simpl. split; now intros ->.
Qed.

(** C4 as amended. When the reply invokes a tool and the tool is
    custom_sum, [get_sum] prints the JSON-encoded arguments, decodes them
    and returns what [custom_sum] returns for them on the ledger, leaving
    the ledger as [custom_sum] leaves it; arguments that do not decode end
    the call with the decoding error.  When the tool is any other,
    [get_sum] prints a warning with the text of the reply and returns no
    value.  The value returned is a sum or nothing; it carries neither the
    name of the tool nor its arguments. *)
Theorem get_sum_dispatch (response : ChatCompletion) (expenses_df : DataFrame)
  (choice : Choice) (others : list Choice) (call : ToolCall) :
  choices response = choice :: others ->
  tool_calls (message choice) = Some [call] ->
  (name (function call) = "custom_sum" ->
   forall time_range,
     json_loads (arguments (function call)) = Some time_range ->
     frame (get_sum to_datetime json_loads response expenses_df)
     = fst (custom_sum to_datetime time_range expenses_df)
     /\ stdout (get_sum to_datetime json_loads response expenses_df)
        = [PrintTimeRange (arguments (function call))]
     /\ result (get_sum to_datetime json_loads response expenses_df)
        = (s ← snd (custom_sum to_datetime time_range expenses_df); Return (Some s)))
  /\ (name (function call) = "custom_sum" ->
      json_loads (arguments (function call)) = None ->
      get_sum to_datetime json_loads response expenses_df
      = mkOutcome expenses_df [PrintTimeRange (arguments (function call))]
                  (Raise JSONDecodeError))
  /\ (name (function call) <> "custom_sum" ->
      get_sum to_datetime json_loads response expenses_df
      = mkOutcome expenses_df
                  [PrintTimeRange (arguments (function call));
                   PrintWarning (content (message choice))]
                  (Return None)).
Proof.
  intros Hc Ht. rewrite (get_sum_first_tool _ _ _ _ _ _ Hc Ht).
  split; [|split].
  - intros Hn time_range Hj. apply String.eqb_eq in Hn. rewrite Hn, Hj. auto.
  - intros Hn Hj. apply String.eqb_eq in Hn. now rewrite Hn, Hj.
  - intros Hn. apply String.eqb_neq in Hn. now rewrite Hn.
Qed.

End GetSumFacts.

(** ** Facts about the receipt cell *)

Section NotebookFacts.

Import Notebook.

Variable today : string.

Lemma add_rows_named (receipt_data : gmap string json)
  (items : list (gmap string json)) (new_rows : list (gmap string json)) :
  Forall (fun item => is_Some (item !! "name")) items ->
  add_rows today receipt_data (JObj <$> items) new_rows
  = Return (new_rows ++ (new_row today receipt_data <$> items)).
Proof.
  intros H. revert new_rows.
  induction H as [|item items [v Hv] _ IH]; intros new_rows; simpl.
  - now rewrite app_nil_r.
  - rewrite Hv. simpl. rewrite IH. now rewrite <- app_assoc.
Qed.

Lemma add_rows_unnamed (receipt_data : gmap string json)
  (named : list (gmap string json)) (item : gmap string json) (rest : list json)
  (new_rows : list (gmap string json)) :
  Forall (fun item => is_Some (item !! "name")) named ->
  item !! "name" = None ->
  add_rows today receipt_data ((JObj <$> named) ++ JObj item :: rest) new_rows
  = Raise (KeyError "name").
Proof.
  intros H Hitem. revert new_rows.
  induction H as [|first named [v Hv] _ IH]; intros new_rows; simpl.
  - now rewrite Hitem.
  - rewrite Hv. simpl. apply IH.
Qed.

Lemma build_new_rows_unnamed (receipt_data : gmap string json)
  (named : list (gmap string json)) (item : gmap string json) (rest : list json) :
  receipt_data !! "items" = Some (JArr ((JObj <$> named) ++ JObj item :: rest)) ->
  Forall (fun item => is_Some (item !! "name")) named ->
  item !! "name" = None ->
  build_new_rows today receipt_data = Raise (KeyError "name").
Proof.
  intros Hitems Hnamed Hitem. unfold build_new_rows. rewrite Hitems.
  now apply add_rows_unnamed.
Qed.

Lemma new_row_fields (receipt_data item : gmap string json) :
  new_row today receipt_data item !! "Date"
  = Some (default (JStr today) (receipt_data !! "date"))
  /\ new_row today receipt_data item !! "Vendor"
     = Some (default (JStr EmptyString) (receipt_data !! "vendor"))
  /\ new_row today receipt_data item !! "Name"
     = Some (default (JStr EmptyString) (item !! "name"))
  /\ new_row today receipt_data item !! "Quantity"
     = Some (default (JInt 1) (item !! "quantity"))
  /\ new_row today receipt_data item !! "Price"
     = Some (default (JInt 0) (item !! "price"))
  /\ new_row today receipt_data item !! "Category"
     = Some (default (JStr "Uncategorized") (item !! "category"))
  /\ new_row today receipt_data item !! "Payment method"
     = Some (default (JStr "Unknown") (receipt_data !! "payment_method")).
Proof. unfold new_row, get. repeat split; by simplify_map_eq. Qed.

Lemma defaults_outside_enums :
  ("Uncategorized" ∉ category_enum) /\ ("Unknown" ∉ payment_method_enum).
Proof.
  unfold category_enum, payment_method_enum.
  split; rewrite !not_elem_of_cons; repeat split; try discriminate;
    apply not_elem_of_nil.
Qed.

(** X1. The rows of a receipt all of whose items are named: one row per item,
    in order, each key taken from the payload when present and from its
    default when absent.  The defaults of Category and Payment method are
    not members of the enums of the schema. *)
Theorem new_rows_one_per_item
  (receipt_data : gmap string json) (items : list (gmap string json)) :
  receipt_data !! "items" = Some (JArr (JObj <$> items)) ->
  Forall (fun item => is_Some (item !! "name")) items ->
  exists new_rows,
    build_new_rows today receipt_data = Return new_rows
    /\ length new_rows = length items
    /\ Forall2
         (fun item row =>
            row !! "Date" = Some (default (JStr today) (receipt_data !! "date"))
            /\ row !! "Vendor" = Some (default (JStr EmptyString) (receipt_data !! "vendor"))
            /\ row !! "Name" = item !! "name"
            /\ row !! "Quantity" = Some (default (JInt 1) (item !! "quantity"))
            /\ row !! "Price" = Some (default (JInt 0) (item !! "price"))
            /\ row !! "Category" = Some (default (JStr "Uncategorized") (item !! "category"))
            /\ row !! "Payment method"
               = Some (default (JStr "Unknown") (receipt_data !! "payment_method")))
         items new_rows
    /\ ("Uncategorized" ∉ category_enum)
    /\ ("Unknown" ∉ payment_method_enum).
Proof.
  intros Hitems Hnamed. exists (new_row today receipt_data <$> items).
  unfold build_new_rows. rewrite Hitems, (add_rows_named _ _ _ Hnamed). simpl.
  split; [reflexivity|]. split; [apply length_fmap|].
  split; [|apply defaults_outside_enums].
  apply Forall2_fmap_r, Forall_Forall2_diag.
  eapply Forall_impl; [exact Hnamed|]. intros item [v Hv].
  destruct (new_row_fields receipt_data item) as (? & ? & Hn & ? & ? & ? & ?).
  rewrite Hv in Hn |- *. repeat split; assumption.
Qed.

End NotebookFacts.

(** ** The worked example *)

Section ScenarioFacts.

Import Scenario.

Lemma ledger_converts : convert_dates Iso.to_datetime ledger = Some ledger_converted.
Proof. reflexivity. Qed.

(** C8. On the ledger of two purchases, 49.90 on 2024-05-11 and 22.73 on
    2024-05-16, whatever their other columns hold, [custom_sum] returns
    72.63 for the range from 2024-05-11 to 2024-05-16 and for the year
    2024, and 0 for the year 2023. *)
Theorem custom_sum_scenario
  (vendor1 name1 category1 payment1 vendor2 name2 category2 payment2 : string)
  (quantity1 quantity2 : Z) :
  let records :=
    [mkRow (DateStr "2024-05-11") vendor1 name1 quantity1 49.90%Q category1 payment1;
     mkRow (DateStr "2024-05-16") vendor2 name2 quantity2 22.73%Q category2 payment2] in
  (exists s,
     snd (custom_sum Iso.to_datetime
            {[ "start_date" := VStr "2024-05-11"; "end_date" := VStr "2024-05-16" ]}
            records) = Return s
     /\ (s == 72.63)%Q)
  /\ (exists s,
        snd (custom_sum Iso.to_datetime {[ "year" := VInt 2024 ]} records) = Return s
        /\ (s == 72.63)%Q)
  /\ snd (custom_sum Iso.to_datetime {[ "year" := VInt 2023 ]} records) = Return 0%Q.
Proof.
  intros records. subst records. split; [|split].
  - eexists. split; [vm_compute; reflexivity | reflexivity].
  - eexists. split; [vm_compute; reflexivity | reflexivity].
  - vm_compute. reflexivity.
Qed.

#[local] Set Warnings "-inexact-float".

(** The two prices added in binary64, as pandas holds them, give the
    binary64 number written 72.63 as well; each decimal stands for the
    binary64 number nearest to it. *)
Lemma scenario_sum_binary64 : binary64_sum [49.90; 22.73]%float = 72.63%float.
Proof. vm_compute. reflexivity. Qed.


(** *** The theorems above at the worked example *)


(** The quantities 1 and 3 replaced by 10 and 0: the year's sum is the same. *)
Lemma custom_sum_sums_price_only_witness :
  snd (custom_sum Iso.to_datetime {[ "year" := VInt 2024 ]} ledger)
  = Return (fold_left Qplus (map Price ledger_converted) 0%Q)
  /\ snd (custom_sum Iso.to_datetime {[ "year" := VInt 2024 ]} ledger)
     = snd (custom_sum Iso.to_datetime {[ "year" := VInt 2024 ]} ledger_requantified).
Proof.
  destruct (custom_sum_sums_price_only Iso.to_datetime {[ "year" := VInt 2024 ]} ledger)
    as [Hsum Hsame].
  split.
  - apply (Hsum ledger_converted ledger_converted); reflexivity.
  - apply Hsame. repeat constructor.
Defined.

(** C3 as stated fails: after a call the Date column of the ledger holds
    datetimes where it held text. *)
Lemma custom_sum_rewrites_date_column :
  map Date ledger = [DateStr "2024-05-11"; DateStr "2024-05-16"]
  /\ map Date (fst (custom_sum Iso.to_datetime {[ "year" := VInt 2024 ]} ledger))
     = [DateVal (Stamp (midnight 2024 5 11)); DateVal (Stamp (midnight 2024 5 16))]
  /\ fst (custom_sum Iso.to_datetime {[ "year" := VInt 2024 ]} ledger) <> ledger.
Proof.
  split; [reflexivity|]. split; [reflexivity|].
  intros H. apply (f_equal (map Date)) in H. discriminate H.
Defined.

(** The ledger read from the CSV file has its Date column overwritten; a
    ledger with a date that cannot be read is left as it is, and so is a
    ledger that holds datetimes already. *)
Lemma custom_sum_frame_witness :
  Forall2 (fun r r' => exists d, cell_to_datetime Iso.to_datetime (Date r) = Some d
                                 /\ r' = set_Date (DateVal d) r)
    ledger (fst (custom_sum Iso.to_datetime {[ "year" := VInt 2024 ]} ledger))
  /\ custom_sum Iso.to_datetime {[ "year" := VInt 2024 ]}
       [purchase "11 mai 2024" 1 49.90%Q]
     = ([purchase "11 mai 2024" 1 49.90%Q], Raise DateParseError)
  /\ fst (custom_sum Iso.to_datetime {[ "year" := VInt 2024 ]} ledger_converted)
     = ledger_converted
  /\ Forall2 (fun r r' => cell_to_datetime Iso.to_datetime (Date r')
                          = cell_to_datetime Iso.to_datetime (Date r))
       ledger (fst (custom_sum Iso.to_datetime {[ "year" := VInt 2024 ]} ledger)).
Proof.
  split; [|split; [|split]].
  - apply (proj1 (custom_sum_frame Iso.to_datetime {[ "year" := VInt 2024 ]} ledger)).
    constructor; [|constructor; [|constructor]]; eexists; reflexivity.
  - apply (proj1 (proj2 (custom_sum_frame Iso.to_datetime {[ "year" := VInt 2024 ]}
                           [purchase "11 mai 2024" 1 49.90%Q]))).
    left. reflexivity.
  - apply (proj1 (proj2 (proj2
             (custom_sum_frame Iso.to_datetime {[ "year" := VInt 2024 ]}
                ledger_converted)))).
    right. constructor; [|constructor; [|constructor]]; eexists; reflexivity.
  - apply (proj2 (proj2 (proj2
             (custom_sum_frame Iso.to_datetime {[ "year" := VInt 2024 ]} ledger)))).
Defined.


Lemma custom_sum_unrecognized_witness :
  recognized {[ "month" := VInt 5 ]} = false
  /\ is_return (snd (custom_sum Iso.to_datetime {[ "month" := VInt 5 ]} ledger)) = false
  /\ custom_sum Iso.to_datetime {[ "month" := VInt 5 ]} ledger
     = (ledger_converted, Raise InvalidTimeRange)
  /\ custom_sum Iso.to_datetime ∅ ledger = (ledger_converted, Raise InvalidTimeRange).
Proof.
  destruct (custom_sum_unrecognized Iso.to_datetime ledger) as (Hgen & _ & Hempty).
  assert (Hkeys : recognized {[ "month" := VInt 5 ]} = false) by reflexivity.
  destruct (Hgen {[ "month" := VInt 5 ]} Hkeys) as [Hraise Herror].
  split; [exact Hkeys|]. split; [exact Hraise|]. split.
  - apply Herror. reflexivity.
  - apply Hempty. reflexivity.
Defined.

Lemma custom_sum_partial_keys_witness :
  custom_sum Iso.to_datetime {[ "start_date" := VStr "2024-05-11" ]} ledger
  = (ledger_converted, Raise InvalidTimeRange)
  /\ custom_sum Iso.to_datetime {[ "end_date" := VStr "2024-05-11" ]} ledger
     = (ledger_converted, Raise InvalidTimeRange)
  /\ custom_sum Iso.to_datetime {[ "month" := VStr "2024-05-11" ]} ledger
     = (ledger_converted, Raise InvalidTimeRange)
  /\ custom_sum Iso.to_datetime
       {[ "start_date" := VStr "2024-05-11"; "month" := VInt 5 ]} ledger
     = (ledger_converted, Raise InvalidTimeRange).
Proof.
  destruct (custom_sum_partial_keys Iso.to_datetime (VStr "2024-05-11")
              ledger ledger_converted ledger_converts) as (Hs & He & Hm & Hgen).
  split; [exact Hs|]. split; [exact He|]. split; [exact Hm|].
  apply (Hgen {[ "start_date" := VStr "2024-05-11"; "month" := VInt 5 ]} "start_date");
    reflexivity.
Defined.

(** *** get_sum at the worked example *)

Lemma year_arguments_decode :
  FlatJson.loads year_arguments = Some {[ "year" := VInt 2024 ]}.
Proof. reflexivity. Qed.

Lemma range_arguments_decode :
  FlatJson.loads range_arguments
  = Some {[ "start_date" := VStr "2024-05-11"; "end_date" := VStr "2024-05-16" ]}.
Proof. reflexivity. Qed.

(** C4 as stated fails: for a reply that invokes exactly one tool,
    [get_sum] returns the requested sum, here 72.63, and not the name of
    the tool with its arguments; two replies whose arguments differ are
    answered by the same value. *)
Lemma get_sum_returns_the_sum :
  (exists s,
     result (get_sum Iso.to_datetime FlatJson.loads
               (tool_reply "custom_sum" year_arguments) ledger) = Return (Some s)
     /\ (s == 72.63)%Q)
  /\ result (get_sum Iso.to_datetime FlatJson.loads
               (tool_reply "custom_sum" year_arguments) ledger)
     = result (get_sum Iso.to_datetime FlatJson.loads
                 (tool_reply "custom_sum" range_arguments) ledger)
  /\ spec_tagged_result (mkMessage None (Some [mkToolCall (mkToolFunction "custom_sum" year_arguments)]))
     = Some (ToolInvocation "custom_sum" year_arguments)
  /\ spec_tagged_result (mkMessage None (Some [mkToolCall (mkToolFunction "custom_sum" range_arguments)]))
     = Some (ToolInvocation "custom_sum" range_arguments)
  /\ ToolInvocation "custom_sum" year_arguments
     <> ToolInvocation "custom_sum" range_arguments.
Proof.
  split; [|split; [|split; [|split]]].
  - eexists. split; [vm_compute; reflexivity | reflexivity].
  - vm_compute. reflexivity.
  - reflexivity.
  - reflexivity.
  - intros H. injection H as H. vm_compute in H. discriminate H.
Defined.

Lemma get_sum_dispatch_witness :
  (frame (get_sum Iso.to_datetime FlatJson.loads
            (tool_reply "custom_sum" year_arguments) ledger)
   = fst (custom_sum Iso.to_datetime {[ "year" := VInt 2024 ]} ledger)
   /\ stdout (get_sum Iso.to_datetime FlatJson.loads
                (tool_reply "custom_sum" year_arguments) ledger)
      = [PrintTimeRange year_arguments]
   /\ result (get_sum Iso.to_datetime FlatJson.loads
                (tool_reply "custom_sum" year_arguments) ledger)
      = (s ← snd (custom_sum Iso.to_datetime {[ "year" := VInt 2024 ]} ledger);
         Return (Some s)))
  /\ get_sum Iso.to_datetime FlatJson.loads (tool_reply "custom_sum" "{year}") ledger
     = mkOutcome ledger [PrintTimeRange "{year}"] (Raise JSONDecodeError)
  /\ get_sum Iso.to_datetime FlatJson.loads
       (tool_reply "itemize_receipt" year_arguments) ledger
     = mkOutcome ledger [PrintTimeRange year_arguments; PrintWarning None] (Return None).
Proof.
  split; [|split].
  - apply (proj1 (get_sum_dispatch Iso.to_datetime FlatJson.loads
                    (tool_reply "custom_sum" year_arguments) ledger _ _ _
                    eq_refl eq_refl) eq_refl).
    exact year_arguments_decode.
  - apply (proj1 (proj2 (get_sum_dispatch Iso.to_datetime FlatJson.loads
                           (tool_reply "custom_sum" "{year}") ledger _ _ _
                           eq_refl eq_refl)) eq_refl).
    reflexivity.
  - apply (proj2 (proj2 (get_sum_dispatch Iso.to_datetime FlatJson.loads
                           (tool_reply "itemize_receipt" year_arguments) ledger _ _ _
                           eq_refl eq_refl))).
    discriminate.
Defined.

(** A reply of plain text, with no tool call, ends [get_sum] with the
    TypeError of its first [print]. *)
Lemma get_sum_text_reply (text : string) :
  get_sum Iso.to_datetime FlatJson.loads (text_reply text) ledger
  = mkOutcome ledger [] (Raise TypeError).
Proof.
  apply (proj1 (get_sum_without_tool Iso.to_datetime FlatJson.loads
                  (text_reply text) ledger _ _ eq_refl)).
  reflexivity.
Qed.

(** *** The receipt cell at an example *)

(** C10, where the code departs from it: an item without a name does not
    get the empty string for a name.  The [print] that opens the loop
    body reads [item['name']] and raises KeyError, and no row is
    created. *)
Theorem new_rows_item_without_name :
  Notebook.build_new_rows "2024-06-11" receipt_unnamed = Raise (KeyError "name").
Proof. reflexivity. Qed.

(** An item with a name and nothing else: one row, filled with defaults. *)
Lemma new_rows_one_per_item_witness :
  exists new_rows,
    Notebook.build_new_rows "2024-06-11" receipt_named = Return new_rows
    /\ length new_rows = length [named_item]
    /\ Forall2
         (fun item row =>
            row !! "Date"
            = Some (default (Notebook.JStr "2024-06-11") (receipt_named !! "date"))
            /\ row !! "Vendor"
               = Some (default (Notebook.JStr EmptyString) (receipt_named !! "vendor"))
            /\ row !! "Name" = item !! "name"
            /\ row !! "Quantity" = Some (default (Notebook.JInt 1) (item !! "quantity"))
            /\ row !! "Price" = Some (default (Notebook.JInt 0) (item !! "price"))
            /\ row !! "Category"
               = Some (default (Notebook.JStr "Uncategorized") (item !! "category"))
            /\ row !! "Payment method"
               = Some (default (Notebook.JStr "Unknown")
                         (receipt_named !! "payment_method")))
         [named_item] new_rows
    /\ ("Uncategorized" ∉ Notebook.category_enum)
    /\ ("Unknown" ∉ Notebook.payment_method_enum).
Proof.
  apply (new_rows_one_per_item "2024-06-11" receipt_named [named_item]).
  - reflexivity.
  - constructor; [|constructor]. eexists. reflexivity.
Defined.

End ScenarioFacts.

(** ** Further laws of custom_sum *)

Section CustomSumLaws.

Variable to_datetime : value -> option datetime.

(** *** Conversion of the Date column, again *)

Lemma converted_holds_datetimes (df converted : DataFrame) :
  convert_dates to_datetime df = Some converted ->
  Forall (fun r => exists d, Date r = DateVal d) converted.
Proof.
  intros H%convert_dates_rows.
  induction H as [|r r' df c (d & _ & ->) _ IH]; constructor; [|assumption].
  now exists d.
Qed.

Lemma convert_dates_app (df1 df2 : DataFrame) :
  convert_dates to_datetime (df1 ++ df2)
  = match convert_dates to_datetime df1, convert_dates to_datetime df2 with
    | Some c1, Some c2 => Some (c1 ++ c2)
    | _, _ => None
    end.
Proof.
  induction df1 as [|r df1 IH]; simpl.
  - now destruct (convert_dates to_datetime df2).
  - destruct (convert_row to_datetime r); [|reflexivity]. rewrite IH.
    destruct (convert_dates to_datetime df1); [|reflexivity].
    now destruct (convert_dates to_datetime df2).
Qed.

Lemma filter_sublist {A : Type} (p p' : A -> bool) (l : list A) :
  (forall x, p x = true -> p' x = true) ->
  sublist (List.filter p l) (List.filter p' l).
Proof.
  intros Hsub. induction l as [|x l IH]; simpl; [constructor|].
  specialize (Hsub x). destruct (p x), (p' x).
  - now apply sublist_skip.
  - discriminate Hsub. reflexivity.
  - now apply sublist_cons.
  - assumption.
Qed.

Lemma filter_none {A : Type} (f : A -> bool) (l : list A) :
  (forall x, f x = false) -> List.filter f l = [].
Proof.
  intros H. induction l as [|x l IH]; simpl; [reflexivity|]. now rewrite H.
Qed.

(** *** The order on timestamps *)

Lemma ts_compare_antisym (a b : Timestamp) :
  ts_compare b a = CompOpp (ts_compare a b).
Proof.
  destruct a as [ya ma da na], b as [yb mb db nb]; unfold ts_compare; simpl.
  rewrite (Z.compare_antisym ya yb), (Z.compare_antisym ma mb),
    (Z.compare_antisym da db), (Z.compare_antisym na nb).
  destruct (ya ?= yb), (ma ?= mb), (da ?= db), (na ?= nb); reflexivity.
Qed.

Lemma ts_eqb_leb (a b : Timestamp) :
  ts_eqb a b = ts_leb b a && ts_leb a b.
Proof.
  unfold ts_eqb, ts_leb. rewrite (ts_compare_antisym a b).
  now destruct (ts_compare a b).
Qed.

Lemma dt_eqb_leb (x d : datetime) :
  dt_eqb x d = dt_leb d x && dt_leb x d.
Proof.
  destruct x as [|t], d as [|u]; simpl; try reflexivity. apply ts_eqb_leb.
Qed.

Lemma ts_lt_trans (a b c : Timestamp) : ts_lt a b -> ts_lt b c -> ts_lt a c.
Proof.
  destruct a as [ya ma da na], b as [yb mb db nb], c as [yc mc dc nc].
  unfold ts_lt; simpl. lia.
Qed.

Lemma ts_lt_irrefl (a : Timestamp) : ~ ts_lt a a.
Proof. destruct a. unfold ts_lt; simpl. lia. Qed.

Lemma ts_le_trans (a b c : Timestamp) : ts_le a b -> ts_le b c -> ts_le a c.
Proof.
  intros [Hab | ->] [Hbc | ->]; try (now left); try (now right).
  left. now apply (ts_lt_trans a b c).
Qed.

Lemma ts_le_not_lt (a b : Timestamp) : ts_le a b -> ts_lt b a -> False.
Proof.
  intros [Hab | ->] Hba.
  - apply (ts_lt_irrefl a). now apply (ts_lt_trans a b a).
  - now apply (ts_lt_irrefl b).
Qed.

Lemma date_test_NaT (time_range : gmap string value) (test : datetime -> bool) :
  date_test to_datetime time_range = Return test -> test NaT = false.
Proof.
  unfold date_test, scalar_to_datetime.
  destruct (time_range !! "specific_date") as [v|].
  { destruct (to_datetime v); [|discriminate]. now intros [= <-]. }
  destruct (time_range !! "start_date") as [vs|], (time_range !! "end_date") as [ve|];
    try (destruct (to_datetime vs) as [s|]; [|discriminate];
         destruct (to_datetime ve); [|discriminate]; intros [= <-];
         simpl; now destruct s);
    destruct (time_range !! "month"), (time_range !! "year");
    intros [= <-]; reflexivity.
Qed.

Lemma custom_sum_kept_rows (time_range : gmap string value) (df : DataFrame) :
  snd (custom_sum to_datetime time_range df)
  = (kept ← kept_rows to_datetime time_range df; Return (sum_price kept)).
Proof.
  unfold custom_sum, kept_rows.
  now destruct (convert_dates to_datetime df).
Qed.

(** *** The laws *)

(** X2. A call of [custom_sum] does not disturb the calls that follow it:
    on the frame a first call leaves behind, any call leaves the same frame
    and gives the same result as it does on the frame the first call was
    given.  The conversion of the Date column in place is invisible to
    later sums. *)
Theorem custom_sum_after_custom_sum
  (first later : gmap string value) (expenses_df : DataFrame) :
  custom_sum to_datetime later (fst (custom_sum to_datetime first expenses_df))
  = custom_sum to_datetime later expenses_df.
Proof.
  unfold custom_sum at 2 3.
  destruct (convert_dates to_datetime expenses_df) as [c|] eqn:Hc; simpl.
  - unfold custom_sum.
    now rewrite (convert_dates_idempotent to_datetime c
                   (converted_holds_datetimes _ _ Hc)).
  - unfold custom_sum. now rewrite Hc.
Qed.

(** X5. Keys other than the five [custom_sum] looks up are ignored: adding
    one to [time_range], whatever its value, changes neither the result
    nor the frame left behind. *)
Theorem custom_sum_unknown_key
  (time_range : gmap string value) (key : string) (v : value)
  (expenses_df : DataFrame) :
  key ∉ time_range_keys ->
  custom_sum to_datetime (<[key := v]> time_range) expenses_df
  = custom_sum to_datetime time_range expenses_df.
Proof.
  unfold time_range_keys. rewrite !not_elem_of_cons.
  intros (H1 & H2 & H3 & H4 & H5 & _).
  unfold custom_sum, filtered_df.
  now rewrite !lookup_insert_ne by assumption.
Qed.

(** X6. A specific date is the range from that date to itself: with no
    specific_date in [time_range], and a value [v] that [pd.to_datetime]
    reads as a timestamp of the kind the Date column holds, one without a
    time zone, asking for the date [v] and asking for the range that starts
    and ends at [v] give the same result and leave the same frame. *)
Theorem specific_date_is_one_day_range
  (time_range : gmap string value) (v : value) (d : Timestamp)
  (expenses_df : DataFrame) :
  time_range !! "specific_date" = None ->
  to_datetime v = Some (Stamp d) ->
  custom_sum to_datetime (<["specific_date" := v]> time_range) expenses_df
  = custom_sum to_datetime
      (<["start_date" := v]> (<["end_date" := v]> time_range)) expenses_df.
Proof.
  intros H0 Hv. unfold custom_sum.
  destruct (convert_dates to_datetime expenses_df) as [c|]; [|reflexivity].
  f_equal. unfold filtered_df.
  rewrite lookup_insert_eq.
  rewrite !(lookup_insert_ne _ _ "specific_date") by discriminate. rewrite H0.
  rewrite lookup_insert_eq.
  rewrite (lookup_insert_ne _ "start_date" "end_date") by discriminate.
  rewrite lookup_insert_eq.
  unfold scalar_to_datetime. rewrite Hv.
  simpl. do 2 f_equal. apply List.filter_ext. intros r. apply dt_eqb_leb.
Qed.

(** X7. A range whose end lies before its start keeps no record: the call
    returns 0 and raises nothing. *)
Theorem custom_sum_reversed_range
  (time_range : gmap string value) (vs ve : value) (s e : Timestamp)
  (expenses_df converted : DataFrame) :
  time_range !! "specific_date" = None ->
  time_range !! "start_date" = Some vs ->
  time_range !! "end_date" = Some ve ->
  to_datetime vs = Some (Stamp s) ->
  to_datetime ve = Some (Stamp e) ->
  ts_lt e s ->
  convert_dates to_datetime expenses_df = Some converted ->
  custom_sum to_datetime time_range expenses_df = (converted, Return 0%Q).
Proof.
  intros H0 Hs He Hvs Hve Hlt Hc.
  rewrite (custom_sum_converted _ _ _ _ Hc).
  rewrite (filtered_date_range _ _ _ _ _ _ _ H0 Hs He Hvs Hve). simpl.
  rewrite (filter_none (fun r => dt_leb (Stamp s) (row_date r)
                                 && dt_leb (row_date r) (Stamp e))); [reflexivity|].
  intros r.
  destruct (dt_leb (Stamp s) (row_date r) && dt_leb (row_date r) (Stamp e)) eqn:Hb;
    [|reflexivity].
  apply dt_between in Hb. destruct Hb as (t & _ & Hst & Hte).
  exfalso. apply (ts_le_not_lt s e); [|assumption].
  now apply (ts_le_trans s t e).
Qed.

(** X8. A wider range keeps every record a narrower one keeps: when the
    range of one [time_range] lies within the range of another, the records
    [custom_sum] adds up for the first are among those it adds up for the
    second, in the same order. *)
Theorem custom_sum_wider_range
  (inner outer : gmap string value) (vs ve vs' ve' : value)
  (s e s' e' : Timestamp) (expenses_df converted : DataFrame) :
  inner !! "specific_date" = None ->
  inner !! "start_date" = Some vs -> inner !! "end_date" = Some ve ->
  to_datetime vs = Some (Stamp s) -> to_datetime ve = Some (Stamp e) ->
  outer !! "specific_date" = None ->
  outer !! "start_date" = Some vs' -> outer !! "end_date" = Some ve' ->
  to_datetime vs' = Some (Stamp s') -> to_datetime ve' = Some (Stamp e') ->
  ts_le s' s -> ts_le e e' ->
  convert_dates to_datetime expenses_df = Some converted ->
  exists kept kept',
    kept_rows to_datetime inner expenses_df = Return kept
    /\ kept_rows to_datetime outer expenses_df = Return kept'
    /\ sublist kept kept'
    /\ snd (custom_sum to_datetime inner expenses_df) = Return (sum_price kept)
    /\ snd (custom_sum to_datetime outer expenses_df) = Return (sum_price kept').
Proof.
  intros H0 Hs He Hvs Hve H0' Hs' He' Hvs' Hve' Hlo Hhi Hc.
  rewrite !(custom_sum_converted _ _ _ _ Hc). unfold kept_rows. rewrite Hc. simpl.
  rewrite (filtered_date_range _ _ _ _ _ _ _ H0 Hs He Hvs Hve).
  rewrite (filtered_date_range _ _ _ _ _ _ _ H0' Hs' He' Hvs' Hve'). simpl.
  do 2 eexists. split; [reflexivity|]. split; [reflexivity|].
  split; [|split; reflexivity].
  apply filter_sublist.
  intros r (t & Hr & Hst & Hte)%dt_between. apply dt_between.
  exists t. split; [assumption|]. split.
  - now apply (ts_le_trans s' s t).
  - now apply (ts_le_trans t e e').
Qed.

(** X9. A record whose date is missing is counted in no sum: when the Date
    cell of a record reads as NaT, [custom_sum] gives on the ledger the
    result it gives on the ledger without that record, for every
    [time_range]. *)
Theorem custom_sum_missing_date
  (time_range : gmap string value) (df1 df2 : DataFrame) (r : Row) :
  cell_to_datetime to_datetime (Date r) = Some NaT ->
  snd (custom_sum to_datetime time_range (df1 ++ r :: df2))
  = snd (custom_sum to_datetime time_range (df1 ++ df2)).
Proof.
  intros Hr. unfold custom_sum. rewrite !convert_dates_app. simpl.
  unfold convert_row. rewrite Hr.
  destruct (convert_dates to_datetime df1) as [c1|]; [|reflexivity].
  destruct (convert_dates to_datetime df2) as [c2|]; [|reflexivity].
  simpl. rewrite !filtered_df_date_test.
  destruct (date_test to_datetime time_range) as [test|e] eqn:Ht; [|reflexivity].
  simpl. rewrite !List.filter_app. simpl.
  unfold row_date at 2. simpl. now rewrite (date_test_NaT _ _ Ht).
Qed.

(** *** A year and its months *)

Lemma months_elem (k : Z) : 1 <= k <= 12 -> k ∈ months.
Proof.
  intros H. unfold months.
  assert (Hk : k = 1 \/ k = 2 \/ k = 3 \/ k = 4 \/ k = 5 \/ k = 6 \/ k = 7
               \/ k = 8 \/ k = 9 \/ k = 10 \/ k = 11 \/ k = 12) by lia.
  repeat (destruct Hk as [-> | Hk]; [repeat constructor|]). subst. repeat constructor.
Qed.

(** X10. A year and its twelve months: on a ledger whose dates have months
    from 1 to 12, a record is added up for year y exactly when it is added
    up for one month of year y, and no record is added up for two
    months. *)
Theorem year_is_sum_of_months (y : Z) (expenses_df converted : DataFrame) :
  convert_dates to_datetime expenses_df = Some converted ->
  Forall (fun r => forall t, row_date r = Stamp t -> 1 <= ts_month t <= 12) converted ->
  exists (month_rows : Z -> DataFrame) (year_rows : DataFrame),
    (forall m,
       kept_rows to_datetime {[ "month" := VInt m; "year" := VInt y ]} expenses_df
       = Return (month_rows m)
       /\ snd (custom_sum to_datetime {[ "month" := VInt m; "year" := VInt y ]}
                 expenses_df)
          = Return (sum_price (month_rows m)))
    /\ kept_rows to_datetime {[ "year" := VInt y ]} expenses_df = Return year_rows
    /\ snd (custom_sum to_datetime {[ "year" := VInt y ]} expenses_df)
       = Return (sum_price year_rows)
    /\ (forall r, In r year_rows <-> exists m, m ∈ months /\ In r (month_rows m))
    /\ (forall r m m', In r (month_rows m) -> In r (month_rows m') -> m = m').
Proof.
  intros Hc Hmonths.
  exists (fun m => List.filter
                     (fun r => eq_int (dt_month (row_date r)) (VInt m)
                               && eq_int (dt_year (row_date r)) (VInt y))
                     converted).
  exists (List.filter (fun r => eq_int (dt_year (row_date r)) (VInt y)) converted).
  assert (Hm : forall m,
             filtered_df to_datetime {[ "month" := VInt m; "year" := VInt y ]} converted
             = Return (List.filter
                         (fun r => eq_int (dt_month (row_date r)) (VInt m)
                                   && eq_int (dt_year (row_date r)) (VInt y))
                         converted)).
  { intros m.
    apply (filtered_month_year to_datetime _ converted (VInt m) (VInt y));
      [done | by left | by simplify_map_eq | by simplify_map_eq]. }
  assert (Hy : filtered_df to_datetime {[ "year" := VInt y ]} converted
               = Return (List.filter
                           (fun r => eq_int (dt_year (row_date r)) (VInt y)) converted)).
  { apply (filtered_year to_datetime _ converted (VInt y));
      [done | by left | done | by simplify_map_eq]. }
  split; [|split; [|split; [|split]]].
  - intros m. rewrite custom_sum_kept_rows. unfold kept_rows. rewrite Hc, Hm.
    split; reflexivity.
  - unfold kept_rows. now rewrite Hc, Hy.
  - rewrite custom_sum_kept_rows. unfold kept_rows. now rewrite Hc, Hy.
  - intros r. rewrite filter_In. split.
    + intros [Hin (t & Ht & Hty)%eq_int_year].
      exists (ts_month t). split.
      * apply months_elem. rewrite Forall_forall in Hmonths.
        apply (Hmonths r); [now apply list_elem_of_In | assumption].
      * apply filter_In. split; [assumption|].
        apply eq_int_month_year. now exists t.
    + intros (m & _ & [Hin (t & Ht & _ & Hty)%eq_int_month_year]%filter_In).
      split; [assumption|]. apply eq_int_year. now exists t.
  - intros r m m'.
    intros [_ (t & Ht & Hm1 & _)%eq_int_month_year]%filter_In.
    intros [_ (t' & Ht' & Hm2 & _)%eq_int_month_year]%filter_In.
    rewrite Ht in Ht'. injection Ht' as <-. congruence.
Qed.

(** *** What later sections need *)

Lemma custom_sum_returns_recognized
  (time_range : gmap string value) (df : DataFrame) (s : Q) :
  snd (custom_sum to_datetime time_range df) = Return s ->
  recognized time_range = true.
Proof.
  intros H. destruct (recognized time_range) eqn:Hr; [reflexivity|].
  apply (proj1 (recognized_false to_datetime time_range)) in Hr.
  destruct Hr as (H0 & Hse & Hy).
  unfold custom_sum in H.
  destruct (convert_dates to_datetime df) as [c|]; [|discriminate].
  simpl in H. rewrite (filtered_invalid to_datetime time_range c H0 Hse Hy) in H.
  discriminate H.
Qed.

End CustomSumLaws.

(** ** Further laws of get_sum *)

Section GetSumLaws.

Variable to_datetime : value -> option datetime.
Variable json_loads : string -> option (gmap string value).

Lemma get_sum_no_choice (response : ChatCompletion) (df : DataFrame) :
  choices response = [] ->
  get_sum to_datetime json_loads response df = mkOutcome df [] (Raise IndexError).
Proof. intros H. unfold get_sum, first_message. now rewrite H. Qed.

(** X11. [get_sum] touches the ledger through [custom_sum], and only
    through it.  When the first tool of the reply is custom_sum and its
    arguments decode, the ledger after the call is the frame [custom_sum]
    leaves for the decoded [time_range], its Date column converted.  For
    every other reply the ledger after the call is the ledger before it. *)
Theorem get_sum_frame (response : ChatCompletion) (expenses_df : DataFrame) :
  (forall choice others call more time_range,
     choices response = choice :: others ->
     tool_calls (message choice) = Some (call :: more) ->
     name (function call) = "custom_sum" ->
     json_loads (arguments (function call)) = Some time_range ->
     frame (get_sum to_datetime json_loads response expenses_df)
     = fst (custom_sum to_datetime time_range expenses_df))
  /\ ((forall choice others call more time_range,
         choices response = choice :: others ->
         tool_calls (message choice) = Some (call :: more) ->
         name (function call) = "custom_sum" ->
         json_loads (arguments (function call)) = Some time_range ->
         False) ->
      frame (get_sum to_datetime json_loads response expenses_df) = expenses_df).
Proof.
  split.
  - intros choice others call more time_range Hc Ht Hn Hj.
    rewrite (get_sum_first_tool to_datetime json_loads _ expenses_df _ _ _ _ Hc Ht).
    apply String.eqb_eq in Hn. rewrite Hn, Hj. reflexivity.
  - intros Hnone.
    destruct (choices response) as [|choice others] eqn:Hc.
    { now rewrite (get_sum_no_choice _ _ Hc). }
    destruct (tool_calls (message choice)) as [[|call more]|] eqn:Ht.
    + now rewrite (proj2 (get_sum_without_tool to_datetime json_loads _ expenses_df
                            _ _ Hc) Ht).
    + rewrite (get_sum_first_tool to_datetime json_loads _ expenses_df _ _ _ _ Hc Ht).
      destruct (String.eqb (name (function call)) "custom_sum") eqn:Hn; [|reflexivity].
      destruct (json_loads (arguments (function call))) as [time_range|] eqn:Hj;
        [|reflexivity].
      apply String.eqb_eq in Hn.
      destruct (Hnone choice others call more time_range eq_refl Ht Hn Hj).
    + now rewrite (proj1 (get_sum_without_tool to_datetime json_loads _ expenses_df
                            _ _ Hc) Ht).
Qed.

(** X12. [get_sum] reads the first tool call of the first choice and
    nothing after it: further choices and further tool calls of the reply
    change neither what is returned, nor what is printed, nor the ledger. *)
Theorem get_sum_first_only
  (text : option string) (call : ToolCall) (more : list ToolCall)
  (others : list Choice) (expenses_df : DataFrame) :
  get_sum to_datetime json_loads
    (mkChatCompletion (mkChoice (mkMessage text (Some (call :: more))) :: others))
    expenses_df
  = get_sum to_datetime json_loads
      (mkChatCompletion [mkChoice (mkMessage text (Some [call]))])
      expenses_df.
Proof.
  rewrite (get_sum_first_tool to_datetime json_loads
             (mkChatCompletion (mkChoice (mkMessage text (Some (call :: more))) :: others))
             expenses_df
             (mkChoice (mkMessage text (Some (call :: more)))) others call more
             eq_refl eq_refl).
  rewrite (get_sum_first_tool to_datetime json_loads
             (mkChatCompletion [mkChoice (mkMessage text (Some [call]))])
             expenses_df
             (mkChoice (mkMessage text (Some [call]))) [] call []
             eq_refl eq_refl).
  reflexivity.
Qed.

(** X13. [get_sum] returns a sum for custom_sum replies only: whenever a
    sum is returned, the first tool of the reply is custom_sum, its
    arguments decode to a [time_range] with a recognized key combination,
    and the sum is the one [custom_sum] returns for it on the ledger. *)
Theorem get_sum_returns_sum_only
  (response : ChatCompletion) (expenses_df : DataFrame) (s : Q) :
  result (get_sum to_datetime json_loads response expenses_df) = Return (Some s) ->
  exists choice others call more time_range,
    choices response = choice :: others
    /\ tool_calls (message choice) = Some (call :: more)
    /\ name (function call) = "custom_sum"
    /\ json_loads (arguments (function call)) = Some time_range
    /\ recognized time_range = true
    /\ snd (custom_sum to_datetime time_range expenses_df) = Return s.
Proof.
  destruct (choices response) as [|choice others] eqn:Hc.
  { rewrite (get_sum_no_choice _ _ Hc). discriminate. }
  destruct (tool_calls (message choice)) as [[|call more]|] eqn:Ht.
  - rewrite (proj2 (get_sum_without_tool to_datetime json_loads _ expenses_df _ _ Hc) Ht).
    discriminate.
  - rewrite (get_sum_first_tool to_datetime json_loads _ expenses_df _ _ _ _ Hc Ht).
    destruct (String.eqb (name (function call)) "custom_sum") eqn:Hn; [|discriminate].
    apply String.eqb_eq in Hn.
    destruct (json_loads (arguments (function call))) as [time_range|] eqn:Hj;
      simpl; [|discriminate].
    destruct (snd (custom_sum to_datetime time_range expenses_df)) as [x|e] eqn:Hs;
      simpl; [|discriminate].
    intros [= <-]. exists choice, others, call, more, time_range.
    repeat split; try assumption.
    now apply (custom_sum_returns_recognized to_datetime _ expenses_df x).
  - rewrite (proj1 (get_sum_without_tool to_datetime json_loads _ expenses_df _ _ Hc) Ht).
    discriminate.
Qed.

End GetSumLaws.

(** ** Further laws of the receipt cell *)

Section NotebookLaws.

Import Notebook.

Variable today : string.

Lemma new_row_dom (receipt_data item : gmap string json) :
  dom (new_row today receipt_data item) = ledger_columns.
Proof.
  unfold new_row, ledger_columns. rewrite !dom_insert_L, dom_empty_L. set_solver.
Qed.

Lemma add_rows_extends (receipt_data : gmap string json) (items : list json)
  (new_rows rows : list (gmap string json)) :
  add_rows today receipt_data items new_rows = Return rows ->
  exists more,
    rows = new_rows ++ more
    /\ length more = length items
    /\ Forall (fun row => dom row = ledger_columns) more.
Proof.
  revert new_rows. induction items as [|item items IH]; intros new_rows; simpl.
  - intros [= <-]. exists []. now rewrite app_nil_r.
  - destruct (item_name item) as [v|e]; [|discriminate]. simpl.
    destruct item as [| | | | | |m]; try discriminate.
    intros H. apply IH in H. destruct H as (more & -> & Hlen & Hdom).
    exists (new_row today receipt_data m :: more).
    rewrite <- app_assoc. simpl. split; [reflexivity|]. split; [now rewrite Hlen|].
    constructor; [apply new_row_dom | assumption].
Qed.

Lemma build_new_rows_shape (receipt_data : gmap string json)
  (rows : list (gmap string json)) :
  build_new_rows today receipt_data = Return rows ->
  Forall (fun row => dom row = ledger_columns) rows
  /\ forall items, receipt_data !! "items" = Some (JArr items) ->
                   length rows = length items.
Proof.
  unfold build_new_rows.
  destruct (receipt_data !! "items") as [[| | | |s|items|m]|]; try discriminate.
  - destruct (String.eqb s EmptyString); [|discriminate].
    intros [= <-]. split; [constructor | discriminate].
  - intros H. apply add_rows_extends in H. destruct H as (more & -> & Hlen & Hdom).
    simpl. split; [assumption|]. now intros ? [= <-].
  - destruct (decide (size m = 0%nat)); [|discriminate].
    intros [= <-]. split; [constructor | discriminate].
Qed.

(** X14. Every row the receipt loop builds has exactly the seven columns
    of expenses.csv, whatever keys the payload and its items hold or
    lack. *)
Theorem new_rows_columns (receipt_data : gmap string json)
  (new_rows : list (gmap string json)) :
  build_new_rows today receipt_data = Return new_rows ->
  Forall (fun row => dom row = ledger_columns) new_rows.
Proof. intros H. now apply build_new_rows_shape in H. Qed.

End NotebookLaws.

(** ** The further laws at the worked example *)

Section MoreScenarioFacts.

Import Scenario MoreScenario.

Lemma custom_sum_unknown_key_witness :
  custom_sum Iso.to_datetime
    (<["currency" := VStr "CAD"]> {[ "year" := VInt 2024 ]}) ledger
  = custom_sum Iso.to_datetime {[ "year" := VInt 2024 ]} ledger.
Proof.
  apply (custom_sum_unknown_key Iso.to_datetime).
  unfold time_range_keys. rewrite !not_elem_of_cons.
  repeat split; try discriminate. apply not_elem_of_nil.
Defined.

Lemma specific_date_is_one_day_range_witness :
  custom_sum Iso.to_datetime
    (<["specific_date" := VStr "2024-05-11"]> {[ "year" := VInt 2023 ]}) ledger
  = custom_sum Iso.to_datetime
      (<["start_date" := VStr "2024-05-11"]>
         (<["end_date" := VStr "2024-05-11"]> {[ "year" := VInt 2023 ]})) ledger.
Proof.
  apply (specific_date_is_one_day_range Iso.to_datetime _ _ (midnight 2024 5 11));
    reflexivity.
Defined.

Lemma custom_sum_reversed_range_witness :
  custom_sum Iso.to_datetime
    {[ "start_date" := VStr "2024-05-16"; "end_date" := VStr "2024-05-11" ]} ledger
  = (ledger_converted, Return 0%Q).
Proof.
  apply (custom_sum_reversed_range Iso.to_datetime _
           (VStr "2024-05-16") (VStr "2024-05-11")
           (midnight 2024 5 16) (midnight 2024 5 11));
    try reflexivity.
  unfold ts_lt, midnight. simpl. lia.
Defined.

Lemma custom_sum_wider_range_witness :
  exists kept kept',
    kept_rows Iso.to_datetime
      {[ "start_date" := VStr "2024-05-12"; "end_date" := VStr "2024-05-16" ]} ledger
    = Return kept
    /\ kept_rows Iso.to_datetime
         {[ "start_date" := VStr "2024-05-11"; "end_date" := VStr "2024-05-16" ]} ledger
       = Return kept'
    /\ sublist kept kept'
    /\ snd (custom_sum Iso.to_datetime
              {[ "start_date" := VStr "2024-05-12"; "end_date" := VStr "2024-05-16" ]}
              ledger) = Return (sum_price kept)
    /\ snd (custom_sum Iso.to_datetime
              {[ "start_date" := VStr "2024-05-11"; "end_date" := VStr "2024-05-16" ]}
              ledger) = Return (sum_price kept').
Proof.
  apply (custom_sum_wider_range Iso.to_datetime _ _
           (VStr "2024-05-12") (VStr "2024-05-16") (VStr "2024-05-11") (VStr "2024-05-16")
           (midnight 2024 5 12) (midnight 2024 5 16)
           (midnight 2024 5 11) (midnight 2024 5 16)
           ledger ledger_converted);
    try reflexivity.
  - left. unfold ts_lt, midnight. simpl. lia.
  - now right.
Defined.

Lemma custom_sum_missing_date_witness :
  snd (custom_sum Iso.to_datetime {[ "year" := VInt 2024 ]}
         ([purchase "2024-05-11" 1 49.90%Q] ++ undated :: [purchase "2024-05-16" 3 22.73%Q]))
  = snd (custom_sum Iso.to_datetime {[ "year" := VInt 2024 ]}
           ([purchase "2024-05-11" 1 49.90%Q] ++ [purchase "2024-05-16" 3 22.73%Q])).
Proof.
  apply (custom_sum_missing_date Iso.to_datetime). reflexivity.
Defined.

Lemma year_is_sum_of_months_witness :
  exists (month_rows : Z -> DataFrame) (year_rows : DataFrame),
    (forall m,
       kept_rows Iso.to_datetime {[ "month" := VInt m; "year" := VInt 2024 ]} ledger
       = Return (month_rows m)
       /\ snd (custom_sum Iso.to_datetime {[ "month" := VInt m; "year" := VInt 2024 ]}
                 ledger)
          = Return (sum_price (month_rows m)))
    /\ kept_rows Iso.to_datetime {[ "year" := VInt 2024 ]} ledger = Return year_rows
    /\ snd (custom_sum Iso.to_datetime {[ "year" := VInt 2024 ]} ledger)
       = Return (sum_price year_rows)
    /\ (forall r, In r year_rows <-> exists m, m ∈ months /\ In r (month_rows m))
    /\ (forall r m m', In r (month_rows m) -> In r (month_rows m') -> m = m').
Proof.
  apply (year_is_sum_of_months Iso.to_datetime 2024 ledger ledger_converted).
  - reflexivity.
  - constructor; [|constructor; [|constructor]];
      intros t [= <-]; simpl; lia.
Defined.

Lemma get_sum_returns_sum_only_witness :
  exists choice others call more time_range,
    choices (tool_reply "custom_sum" year_arguments) = choice :: others
    /\ tool_calls (message choice) = Some (call :: more)
    /\ name (function call) = "custom_sum"
    /\ FlatJson.loads (arguments (function call)) = Some time_range
    /\ recognized time_range = true
    /\ snd (custom_sum Iso.to_datetime time_range ledger)
       = Return (sum_price ledger_converted).
Proof.
  apply (get_sum_returns_sum_only Iso.to_datetime FlatJson.loads
           (tool_reply "custom_sum" year_arguments) ledger).
  reflexivity.
Defined.

Lemma new_rows_columns_witness :
  Forall (fun row => dom row = ledger_columns)
    [Notebook.new_row "2024-06-11" receipt_named named_item].
Proof.
  apply (new_rows_columns "2024-06-11" receipt_named). reflexivity.
Defined.

(** A custom_sum reply leaves the ledger converted; a reply in plain text
    leaves it as it was. *)
Lemma get_sum_frame_witness :
  frame (get_sum Iso.to_datetime FlatJson.loads
           (tool_reply "custom_sum" year_arguments) ledger)
  = fst (custom_sum Iso.to_datetime {[ "year" := VInt 2024 ]} ledger)
  /\ frame (get_sum Iso.to_datetime FlatJson.loads (text_reply "72.63") ledger) = ledger.
Proof.
  split.
  - apply (proj1 (get_sum_frame Iso.to_datetime FlatJson.loads
                    (tool_reply "custom_sum" year_arguments) ledger)
             (mkChoice (mkMessage None
                          (Some [mkToolCall (mkToolFunction "custom_sum" year_arguments)])))
             [] (mkToolCall (mkToolFunction "custom_sum" year_arguments)) []);
      reflexivity.
  - apply (proj2 (get_sum_frame Iso.to_datetime FlatJson.loads (text_reply "72.63") ledger)).
    intros choice others call more time_range Hc Ht. simpl in Hc.
    injection Hc as <- <-. discriminate Ht.
Defined.

(** No purchase in 2023: the sum is 0 in each number type.  Whole prices
    that stay below 2^63 add up to their true sum, 73; the binary64 prices
    add up to a number not below 0, first to last and last to first. *)
Lemma custom_sum_empty_and_nonneg_witness :
  (snd (custom_sum Iso.to_datetime {[ "year" := VInt 2023 ]} ledger) = Return 0%Q
   /\ snd (custom_sum_int64 Iso.to_datetime {[ "year" := VInt 2023 ]} ledger) = Return 0
   /\ snd (custom_sum_binary64 binary64_of_ratio Iso.to_datetime
             {[ "year" := VInt 2023 ]} ledger) = Return 0%float)
  /\ snd (custom_sum_int64 Iso.to_datetime {[ "year" := VInt 2024 ]} ledger_rounded)
     = Return 73
  /\ (exists x,
        snd (custom_sum_binary64 binary64_of_ratio Iso.to_datetime
               {[ "year" := VInt 2024 ]} ledger) = Return x
        /\ (0 <=? x)%float = true)
  /\ (0 <=? total last_first)%float = true.
Proof.
  assert (H2023 : valid_time_range Iso.to_datetime {[ "year" := VInt 2023 ]} = true)
    by reflexivity.
  assert (H2024 : valid_time_range Iso.to_datetime {[ "year" := VInt 2024 ]} = true)
    by reflexivity.
  assert (Hrounded : convert_dates Iso.to_datetime ledger_rounded
                     = Some [on_day 2024 5 11 1 50%Q; on_day 2024 5 16 3 23%Q])
    by reflexivity.
  destruct (custom_sum_empty_and_nonneg Iso.to_datetime binary64_of_ratio
              {[ "year" := VInt 2023 ]} ledger ledger_converted H2023 ledger_converts)
    as (none & Hnone & Hzero & _).
  destruct (custom_sum_empty_and_nonneg Iso.to_datetime binary64_of_ratio
              {[ "year" := VInt 2024 ]} ledger_rounded _ H2024 Hrounded)
    as (whole & Hwhole & _ & Hint & _).
  destruct (custom_sum_empty_and_nonneg Iso.to_datetime binary64_of_ratio
              {[ "year" := VInt 2024 ]} ledger ledger_converted H2024 ledger_converts)
    as (kept & Hkept & _ & _ & Hfloat).
  vm_compute in Hnone. injection Hnone as <-.
  vm_compute in Hwhole. injection Hwhole as <-.
  vm_compute in Hkept. injection Hkept as <-.
  split; [exact (Hzero eq_refl)|]. split; [|split].
  - destruct Hint as (s & Hs & -> & _).
    + constructor; [|constructor; [|constructor]]; vm_compute; discriminate.
    + vm_compute. reflexivity.
    + exact Hs.
  - apply Hfloat.
    constructor; [|constructor; [|constructor]]; vm_compute; reflexivity.
  - apply Hfloat.
    + constructor; [|constructor; [|constructor]]; vm_compute; reflexivity.
    + vm_compute. apply perm_swap.
Defined.

(** C7 as stated fails on an int64 Price column: the largest int64 number
    and 1 are both prices that are not negative, and their sum wraps around
    to the least int64 number. *)
Lemma custom_sum_int64_wraps :
  Forall (fun r => (0 <= Price r)%Q /\ 0 <= whole_price (Price r)) ledger_whole
  /\ valid_time_range Iso.to_datetime {[ "year" := VInt 2024 ]} = true
  /\ snd (custom_sum_int64 Iso.to_datetime {[ "year" := VInt 2024 ]} ledger_whole)
     = Return (-9223372036854775808)
  /\ -9223372036854775808 < 0.
Proof.
  split; [|split; [reflexivity|split; [vm_compute; reflexivity | reflexivity]]].
  constructor; [|constructor; [|constructor]]; split; vm_compute; discriminate.
Defined.

End MoreScenarioFacts.
